(** * Adafruit_CircuitPython_TLA202x: a shallow embedding of the driver

    The development follows [adafruit_tla202x/__init__.py]:
    - [CV] and the four enumerations built with [CV.add_values];
    - the two-register device behind the I2C bus, as an arbitrary
      transition system with a log of the register transactions;
    - the register descriptors ([RWBit], [RWBits], [ROUnaryStruct]) at
      the level of 16-bit words;
    - class [TLA2024]: its properties, [read], [_read_volts] and
      [_read_lsb], in a state-and-exception monad with fuel for the
      busy-wait loop of the [mode] setter.

    Python [int]s are [Z], Python [float]s are binary64 primitive floats. *)

From Stdlib Require Import ZArith List Bool Lia PrimFloat Uint63.
From stdpp Require Import gmap strings.

Set Warnings "-inexact-float".
Open Scope Z_scope.

(** ** Python values that occur in the tables and as results *)

Inductive pyval :=
| PyNone
| PyBool (b : bool)
| PyInt (z : Z)
| PyFloat (f : float)
| PyStr (s : string).

(** ** class CV *)

Module CV.

(** The two class-level dicts and the attributes created by [setattr]. *)
Record t := mk {
  string : gmap Z pyval;
  lsb : gmap Z pyval;
  attrs : gmap String.string Z
}.

Definition value_tuple : Type := String.string * Z * pyval * pyval.

Definition empty : t := {| string := ∅; lsb := ∅; attrs := ∅ |}.

Definition add_value (cls : t) (value_tuple : value_tuple) : t :=
  let '(name, value, str, l) := value_tuple in
  {| string := <[value := str]> (string cls);
     lsb := <[value := l]> (lsb cls);
     attrs := <[name := value]> (attrs cls) |}.

(** [cls.string = {}; cls.lsb = {}] and then one pass over the tuples. *)
Definition add_values (value_tuples : list value_tuple) : t :=
  fold_left add_value value_tuples empty.

(** [value in cls.string] *)
Definition is_valid (cls : t) (value : Z) : bool :=
  bool_decide (is_Some (string cls !! value)).

(** Attribute access [cls.NAME]; [None] stands for a missing attribute. *)
Definition getattr (cls : t) (name : String.string) : option Z :=
  attrs cls !! name.

End CV.

Definition Mode : CV.t :=
  CV.add_values
    [ ("CONTINUOUS", 0, PyStr "Continuous", PyNone);
      ("ONE_SHOT", 1, PyStr "One Shot", PyNone) ].

Definition Range : CV.t :=
  CV.add_values
    [ ("RANGE_6_144V", 0, PyStr "±6.144 V", PyInt 3);
      ("RANGE_4_096V", 1, PyStr "±4.096 V", PyInt 2);
      ("RANGE_2_048V", 2, PyStr "±2.048 V", PyInt 1);
      ("RANGE_1_024V", 3, PyStr "±1.024 V", PyFloat 0.5);
      ("RANGE_0_512V", 4, PyStr "±0.512 V", PyFloat 0.25);
      ("RANGE_0_256V", 5, PyStr "±0.256 V", PyFloat 0.125) ].

Definition DataRate : CV.t :=
  CV.add_values
    [ ("RATE_128SPS", 0, PyInt 128, PyNone);
      ("RATE_250SPS", 1, PyInt 250, PyNone);
      ("RATE_490SPS", 2, PyInt 490, PyNone);
      ("RATE_920SPS", 3, PyInt 920, PyNone);
      ("RATE_1600SPS", 4, PyInt 1600, PyNone);
      ("RATE_2400SPS", 5, PyInt 2400, PyNone);
      ("RATE_3300SPS", 6, PyInt 3300, PyNone) ].

Definition Mux : CV.t :=
  CV.add_values
    [ ("MUX_AIN0_AIN1", 0, PyStr "AIN 0 to AIN 1", PyNone);
      ("MUX_AIN0_AIN3", 1, PyStr "AIN 0 to AIN 3", PyNone);
      ("MUX_AIN1_AIN3", 2, PyStr "AIN 1 to AIN 3", PyNone);
      ("MUX_AIN2_AIN3", 3, PyStr "AIN 2 to AIN 3", PyNone);
      ("MUX_AIN0_GND", 4, PyStr "AIN 0 to GND", PyNone);
      ("MUX_AIN1_GND", 5, PyStr "AIN 1 to GND", PyNone);
      ("MUX_AIN2_GND", 6, PyStr "AIN 2 to GND", PyNone);
      ("MUX_AIN3_GND", 7, PyStr "AIN 3 to GND", PyNone) ].

(** The enumeration members the driver names, read off the tables. *)
Definition attr_or_zero (cls : CV.t) (name : string) : Z :=
  default 0 (CV.getattr cls name).

Definition CONTINUOUS : Z := Eval vm_compute in attr_or_zero Mode "CONTINUOUS".
Definition ONE_SHOT : Z := Eval vm_compute in attr_or_zero Mode "ONE_SHOT".
Definition MUX_AIN0_GND : Z := Eval vm_compute in attr_or_zero Mux "MUX_AIN0_GND".
Definition RATE_3300SPS : Z := Eval vm_compute in attr_or_zero DataRate "RATE_3300SPS".
Definition RANGE_2_048V : Z := Eval vm_compute in attr_or_zero Range "RANGE_2_048V".

(** ** Module constants *)

Definition _TLA_DEFAULT_ADDRESS : Z := 0x48.
Definition _DATA_REG : Z := 0x00.
Definition _CONFIG_REG : Z := 0x01.

(** ** Integer and float helpers *)

(** The two bytes of a register, as one unsigned 16-bit word. *)
Definition word16 (z : Z) : Z := z mod 65536.

(** [struct.unpack(">h", ...)]: the word read as a signed 16-bit integer. *)
Definition unpack_h (word : Z) : Z :=
  if 32768 <=? word then word - 65536 else word.

(** Truth value of a Python [int]. *)
Definition truthy (z : Z) : bool := negb (z =? 0).

(** [float(z)], exact for the integers the driver converts
    ([|z| <= 8192], far below [2^53]). *)
Definition float_of_int (z : Z) : float :=
  if z <? 0 then PrimFloat.opp (PrimFloat.of_uint63 (Uint63.of_Z (- z)))
  else PrimFloat.of_uint63 (Uint63.of_Z z).

(** ** Exceptions and the driver monad *)

Inductive exn :=
| AttributeError (msg : string)
| ValueError (msg : string).

(** A call returns, raises, or is still in its busy-wait loop when the
    fuel is used up. *)
Inductive outcome (St A : Type) : Type :=
| Ret (a : A) (s : St)
| Raise (e : exn) (s : St)
| Hang.

Arguments Ret {St A} a s.
Arguments Raise {St A} e s.
Arguments Hang {St A}.

Definition M (St A : Type) : Type := St -> outcome St A.

Definition bind {St A B} (m : M St A) (k : A -> M St B) : M St B :=
  fun s =>
    match m s with
    | Ret a s' => k a s'
    | Raise e s' => Raise e s'
    | Hang => Hang
    end.

Definition raise {St A} (e : exn) : M St A := fun s => Raise e s.

#[export] Instance M_ret St : MRet (M St) := fun A a s => Ret a s.
#[export] Instance M_bind St : MBind (M St) := fun A B k m => bind m k.

(** The state an outcome leaves behind, if the call came back. *)
Definition state_after {St A} (o : outcome St A) : option St :=
  match o with
  | Ret _ s => Some s
  | Raise _ s => Some s
  | Hang => None
  end.

(** [a >> b] on Python ints. *)
Definition py_rshift {St} (a b : Z) : M St Z :=
  if b <? 0 then raise (ValueError "negative shift count")
  else mret (Z.shiftr a b).

(** ** Register transactions and descriptors

    [I2CDevice], [RWBit], [RWBits] and [ROUnaryStruct] are imported from
    the bus-device and register packages; the driver only declares
    them. They are taken here at the level of whole 16-bit register
    words, MSB first. *)

Inductive bus_event :=
| BusRead (reg : Z) (word : Z)
| BusWrite (reg : Z) (word : Z).

(** Modelled from the spec: the imported descriptor
    [RWBit(register_address, bit, 2, lsb_first=False)], one bit of a
    two-byte register, numbered MSB first. *)
Record RWBit := mkRWBit { bit_register : Z; bit : Z }.

(** Modelled from the spec: the imported descriptor
    [RWBits(num_bits, register_address, lowest_bit, 2, lsb_first=False)],
    a field of [num_bits] bits of a two-byte register. *)
Record RWBits := mkRWBits { num_bits : Z; register_address : Z; lowest_bit : Z }.

Definition bit_mask (f : RWBits) : Z :=
  Z.shiftl (Z.shiftl 1 (num_bits f) - 1) (lowest_bit f).

Definition _os : RWBit := mkRWBit _CONFIG_REG 15.
Definition _mux : RWBits := mkRWBits 3 _CONFIG_REG 12.
Definition _pga : RWBits := mkRWBits 3 _CONFIG_REG 9.
Definition _mode : RWBit := mkRWBit _CONFIG_REG 8.
Definition _data_rate : RWBits := mkRWBits 3 _CONFIG_REG 5.

(** Modelled from the spec: the imported descriptors write a field by
    read-modify-write; this is the word sent back, from the word just
    read. *)
Definition set_bit_word (b : RWBit) (value : bool) (word : Z) : Z :=
  if value then Z.lor word (Z.shiftl 1 (bit b))
  else Z.land word (Z.lnot (Z.shiftl 1 (bit b))).

(** Modelled from the spec: [RWBits.__set__] clears the field, ORs in
    the shifted value and sends the two low bytes. *)
Definition set_bits_word (f : RWBits) (value : Z) (word : Z) : Z :=
  word16 (Z.lor (Z.land word (Z.lnot (bit_mask f)))
                (Z.shiftl value (lowest_bit f))).

(** Modelled from the spec: [RWBits.__get__] masks and shifts down. *)
Definition get_bits_word (f : RWBits) (word : Z) : Z :=
  Z.shiftr (Z.land word (bit_mask f)) (lowest_bit f).

(** ** Pure parts of the conversion *)

(** Body of [_read_lsb] after the register read. *)
Definition decode_lsb (raw : Z) : Z :=
  let value_lsb := Z.shiftr raw 4 in
  if truthy (Z.land value_lsb (Z.shiftl 1 11))
  then Z.lor value_lsb 0xF000
  else Z.land value_lsb (Z.lnot 0xF000).

(** [v_fsr] of [_read_volts] for a non-negative [range]. *)
Definition full_scale (range : Z) : Z :=
  let v_fsr := Z.shiftr 8192 range in
  if range =? 0 then 6144 else v_fsr.

(** The float arithmetic of [_read_volts]. *)
Definition scale_volts (value_lsb v_fsr : Z) : float :=
  let v_fsr := float_of_int v_fsr in
  let converted := (float_of_int value_lsb / 2047.0 * v_fsr)%float in
  (converted / 1000.0)%float.

(** ** The public surface of class TLA2024, as data *)

Inductive api_call :=
| GetVoltage
| GetInputChannel
| SetInputChannel (channel : Z)
| GetMode
| SetMode (mode : Z)
| GetDataRate
| SetDataRate (rate : Z)
| GetMux
| SetMux (mux_connection : Z)
| GetRange
| SetRange (value : Z)
| CallRead (channel : Z).

(** The calls that run the one-shot branch of the [mode] setter. *)
Definition takes_one_shot (c : api_call) : bool :=
  match c with
  | SetMode m => m =? ONE_SHOT
  | CallRead _ => true
  | _ => false
  end.

Definition pyval_of_reading (v : option float) : pyval :=
  match v with
  | Some f => PyFloat f
  | None => PyNone
  end.

(** ** class TLA2024 *)

Section Driver.

(** The device on the bus: any transition system that answers a read
    of a register with its two bytes and reacts to a write. *)
Variable Dev : Type.
Variable dev_read : Z -> Dev -> Z * Dev.
Variable dev_write : Z -> Z -> Dev -> Dev.

(** The instance: its I2C device, the two instance attributes
    [_last_one_shot] and [range], and (ghost) the register
    transactions issued so far. *)
Record TLA2024 := mkTLA2024 {
  i2c_device : Dev;
  bus_log : list bus_event;
  _last_one_shot : option float;
  range : option Z
}.

(** The instance after register transactions [evs] that left the
    device in state [d]; the instance attributes are untouched. *)
Definition logged (self : TLA2024) (d : Dev) (evs : list bus_event) : TLA2024 :=
  {| i2c_device := d;
     bus_log := bus_log self ++ evs;
     _last_one_shot := _last_one_shot self;
     range := range self |}.

(** *** Bus transactions *)

(** Modelled from the spec: [read_register] of the bus collaborator, the
    two bytes of a register as one word; the transaction is logged. *)
Definition read_register (reg : Z) : M TLA2024 Z := fun self =>
  let '(bytes, d) := dev_read reg (i2c_device self) in
  let word := word16 bytes in
  Ret word {| i2c_device := d;
              bus_log := bus_log self ++ [BusRead reg word];
              _last_one_shot := _last_one_shot self;
              range := range self |}.

(** Modelled from the spec: [write_register] of the bus collaborator. *)
Definition write_register (reg word : Z) : M TLA2024 unit := fun self =>
  Ret tt {| i2c_device := dev_write reg word (i2c_device self);
            bus_log := bus_log self ++ [BusWrite reg word];
            _last_one_shot := _last_one_shot self;
            range := range self |}.

(** *** Descriptors: read, and read-modify-write *)

(** Modelled from the spec: [RWBit.__get__], a register read. *)
Definition RWBit_get (b : RWBit) : M TLA2024 bool :=
  word ← read_register (bit_register b);
  mret (Z.testbit word (bit b)).

(** Modelled from the spec: [RWBit.__set__], read-modify-write. *)
Definition RWBit_set (b : RWBit) (value : bool) : M TLA2024 unit :=
  word ← read_register (bit_register b);
  write_register (bit_register b) (set_bit_word b value word).

(** Modelled from the spec: [RWBits.__get__], a register read. *)
Definition RWBits_get (f : RWBits) : M TLA2024 Z :=
  reg ← read_register (register_address f);
  mret (get_bits_word f reg).

(** Modelled from the spec: [RWBits.__set__], read-modify-write. *)
Definition RWBits_set (f : RWBits) (value : Z) : M TLA2024 unit :=
  reg ← read_register (register_address f);
  write_register (register_address f) (set_bits_word f value reg).

(** [_raw_adc_read = ROUnaryStruct(_DATA_REG, ">h")]: a read of the
    register, unpacked as a big-endian signed 16-bit integer. *)
Definition _raw_adc_read : M TLA2024 Z :=
  word ← read_register _DATA_REG;
  mret (unpack_h word).

(** *** Instance attributes *)

Definition get_last_one_shot : M TLA2024 (option float) := fun self =>
  Ret (_last_one_shot self) self.

Definition set_last_one_shot (v : option float) : M TLA2024 unit := fun self =>
  Ret tt {| i2c_device := i2c_device self;
            bus_log := bus_log self;
            _last_one_shot := v;
            range := range self |}.

(** The class defines no [range] property: [self.range] is an ordinary
    instance attribute, read with [getattr_range] and stored with
    [setattr_range]. *)
Definition getattr_range : M TLA2024 Z := fun self =>
  match range self with
  | Some r => Ret r self
  | None => Raise (AttributeError "'TLA2024' object has no attribute 'range'") self
  end.

Definition setattr_range (value : Z) : M TLA2024 unit := fun self =>
  Ret tt {| i2c_device := i2c_device self;
            bus_log := bus_log self;
            _last_one_shot := _last_one_shot self;
            range := Some value |}.

(** *** Conversion *)

Definition _read_lsb : M TLA2024 Z :=
  value_lsb ← _raw_adc_read;
  mret (decode_lsb value_lsb).

Definition _read_volts : M TLA2024 float :=
  value_lsb ← _read_lsb;
  r ← getattr_range;
  v_fsr ← py_rshift 8192 r;
  let v_fsr := if r =? 0 then 6144 else v_fsr in
  mret (scale_volts value_lsb v_fsr).

(** *** Properties *)

Definition mode : M TLA2024 bool := RWBit_get _mode.

Definition voltage : M TLA2024 (option float) :=
  m ← mode;
  if Z.b2z m =? ONE_SHOT then get_last_one_shot
  else v ← _read_volts; mret (Some v).

Definition input_channel : M TLA2024 Z := RWBits_get _mux.

Definition set_input_channel (channel : Z) : M TLA2024 unit :=
  if negb ((0 <=? channel) && (channel <? 4))
  then raise (AttributeError "``input_channel`` must be set to a number from 0 to 3")
  else RWBits_set _mux (4 + channel).

(** [while self._os: pass], one register read per turn. *)
Fixpoint wait_os (fuel : nat) : M TLA2024 unit :=
  match fuel with
  | O => fun _ : TLA2024 => Hang
  | S fuel' =>
      busy ← RWBit_get _os;
      if busy : bool then wait_os fuel' else mret tt
  end.

Definition set_mode (fuel : nat) (mode : Z) : M TLA2024 unit :=
  if negb (CV.is_valid Mode mode)
  then raise (AttributeError "``mode`` must be a valid ``Mode``")
  else if mode =? CONTINUOUS
  then RWBit_set _mode (truthy mode)
  else
    RWBit_set _mode (truthy mode);;
    RWBit_set _os true;;
    wait_os fuel;;
    v ← _read_volts;
    set_last_one_shot (Some v).

Definition data_rate : M TLA2024 Z := RWBits_get _data_rate.

Definition set_data_rate (rate : Z) : M TLA2024 unit :=
  if negb (CV.is_valid DataRate rate)
  then raise (AttributeError "``data_rate`` must be a valid ``DataRate``")
  else RWBits_set _data_rate rate.

Definition mux : M TLA2024 Z := RWBits_get _mux.

Definition set_mux (mux_connection : Z) : M TLA2024 unit :=
  if negb (CV.is_valid Mux mux_connection)
  then raise (AttributeError "``mux`` must be a valid ``Mux``")
  else RWBits_set _mux mux_connection.

Definition read (fuel : nat) (channel : Z) : M TLA2024 (option float) :=
  set_input_channel channel;;
  set_mode fuel ONE_SHOT;;
  voltage.

(** The polls of the status bit that end the busy-wait, from device
    state [d]: every answer but the last has bit 15 set. *)
Inductive os_polls : Dev -> list bus_event -> Dev -> Prop :=
| os_polls_clear d bytes d' :
    dev_read _CONFIG_REG d = (bytes, d') ->
    Z.testbit (word16 bytes) 15 = false ->
    os_polls d [BusRead _CONFIG_REG (word16 bytes)] d'
| os_polls_busy d bytes d' evs d'' :
    dev_read _CONFIG_REG d = (bytes, d') ->
    Z.testbit (word16 bytes) 15 = true ->
    os_polls d' evs d'' ->
    os_polls d (BusRead _CONFIG_REG (word16 bytes) :: evs) d''.

(** A computation that comes back (returns or raises) from every
    instance and leaves the cached one-shot result as it was. *)
Definition keeps_one_shot {A} (m : M TLA2024 A) : Prop :=
  forall self, exists self',
    state_after (m self) = Some self' /\
    _last_one_shot self' = _last_one_shot self.

(** *** The client's view: one call on the instance *)

Definition call (fuel : nat) (c : api_call) : M TLA2024 pyval :=
  match c with
  | GetVoltage => v ← voltage; mret (pyval_of_reading v)
  | GetInputChannel => v ← input_channel; mret (PyInt v)
  | SetInputChannel channel => set_input_channel channel;; mret PyNone
  | GetMode => v ← mode; mret (PyBool v)
  | SetMode m => set_mode fuel m;; mret PyNone
  | GetDataRate => v ← data_rate; mret (PyInt v)
  | SetDataRate rate => set_data_rate rate;; mret PyNone
  | GetMux => v ← mux; mret (PyInt v)
  | SetMux m => set_mux m;; mret PyNone
  | GetRange => v ← getattr_range; mret (PyInt v)
  | SetRange value => setattr_range value;; mret PyNone
  | CallRead channel => v ← read fuel channel; mret (pyval_of_reading v)
  end.

(** A client that goes on after an exception: the instance after a
    list of calls, [None] when one of them hangs. *)
Fixpoint run_calls (fuel : nat) (cs : list api_call) (self : TLA2024)
  : option TLA2024 :=
  match cs with
  | [] => Some self
  | c :: cs' =>
      match state_after (call fuel c self) with
      | Some self' => run_calls fuel cs' self'
      | None => None
      end
  end.

(** [__init__], from the [I2CDevice] it creates. *)
Definition __init__ (fuel : nat) (i2c : Dev) : outcome TLA2024 unit :=
  let self := {| i2c_device := i2c; bus_log := [];
                 _last_one_shot := None; range := None |} in
  (set_mode fuel CONTINUOUS;;
   set_mux MUX_AIN0_GND;;
   set_data_rate RATE_3300SPS;;
   setattr_range RANGE_2_048V) self.

End Driver.

Arguments mkTLA2024 {Dev} _ _ _ _.
Arguments i2c_device {Dev} _.
Arguments bus_log {Dev} _.
Arguments _last_one_shot {Dev} _.
Arguments range {Dev} _.
Arguments logged {Dev} self d evs.
Arguments read_register {Dev} dev_read reg _.
Arguments write_register {Dev} dev_write reg word _.
Arguments RWBit_get {Dev} dev_read b _.
Arguments RWBit_set {Dev} dev_read dev_write b value _.
Arguments RWBits_get {Dev} dev_read f _.
Arguments RWBits_set {Dev} dev_read dev_write f value _.
Arguments _raw_adc_read {Dev} dev_read _.
Arguments get_last_one_shot {Dev} _.
Arguments set_last_one_shot {Dev} v _.
Arguments getattr_range {Dev} _.
Arguments setattr_range {Dev} value _.
Arguments _read_lsb {Dev} dev_read _.
Arguments _read_volts {Dev} dev_read _.
Arguments mode {Dev} dev_read _.
Arguments voltage {Dev} dev_read _.
Arguments input_channel {Dev} dev_read _.
Arguments set_input_channel {Dev} dev_read dev_write channel _.
Arguments wait_os {Dev} dev_read fuel _.
Arguments set_mode {Dev} dev_read dev_write fuel mode _.
Arguments data_rate {Dev} dev_read _.
Arguments set_data_rate {Dev} dev_read dev_write rate _.
Arguments mux {Dev} dev_read _.
Arguments set_mux {Dev} dev_read dev_write mux_connection _.
Arguments read {Dev} dev_read dev_write fuel channel _.
Arguments call {Dev} dev_read dev_write fuel c _.
Arguments run_calls {Dev} dev_read dev_write fuel cs self.
Arguments __init__ {Dev} dev_read dev_write fuel i2c.
Arguments os_polls {Dev} dev_read _ _ _.
Arguments keeps_one_shot {Dev A} m.

(** ** A simulated converter

    A register file for running the driver on concrete inputs: CONFIG
    keeps the word written to it, a write with bit 15 set starts a
    conversion that keeps bit 15 reading as set for [latency] polls, and
    DATA answers with the next word of [samples]. *)

Module Sim.

Record device := mk { config : Z; busy : nat; samples : list Z }.

Definition latency : nat := 2.

Definition dev_read (reg : Z) (d : device) : Z * device :=
  if reg =? _CONFIG_REG then
    match busy d with
    | O => (Z.land (config d) 0x7FFF, d)
    | S n => (Z.lor (config d) 0x8000,
              {| config := config d; busy := n; samples := samples d |})
    end
  else
    match samples d with
    | [] => (0, d)
    | x :: rest => (x, {| config := config d; busy := busy d; samples := rest |})
    end.

Definition dev_write (reg word : Z) (d : device) : device :=
  if reg =? _CONFIG_REG then
    {| config := word;
       busy := if Z.testbit word 15 then latency else busy d;
       samples := samples d |}
  else d.

(** An idle device with the given CONFIG word and DATA words to come. *)
Definition idle (cfg : Z) (data : list Z) : device :=
  {| config := cfg; busy := O; samples := data |}.

(** An instance on a device, as [__init__] leaves its attributes but
    with a chosen [range]. *)
Definition instance (d : device) (r : Z) : TLA2024 device :=
  mkTLA2024 d [] None (Some r).

End Sim.

(** ** Readings of the specification, for comparison with the code *)

(** The value stored with a [Range] member (the fourth component of its
    tuple, kept in [Range.lsb]) taken as a shift count, where it is an
    [int]. *)
Definition Range_associated_shift (r : Z) : option Z :=
  match CV.lsb Range !! r with
  | Some (PyInt e) => Some e
  | _ => None
  end.

(** Full scale in millivolts if the shift count were that associated
    value, with the override for code 0. *)
Definition full_scale_by_associated_shift (r : Z) : option Z :=
  match Range_associated_shift r with
  | Some e => Some (if r =? 0 then 6144 else Z.shiftr 8192 e)
  | None => None
  end.

(** ** Auxiliary definitions for the proofs *)

(** The register code of a tuple given to [CV.add_values]. *)
Definition code_of (value_tuple : CV.value_tuple) : Z :=
  let '(_, value, _, _) := value_tuple in value.

(** The sign-extension step of [_read_lsb], on the shifted value. *)
Definition sign_step (v : Z) : Z :=
  if truthy (Z.land v (Z.shiftl 1 11)) then Z.lor v 0xF000
  else Z.land v (Z.lnot 0xF000).

(** All signed 12-bit values. *)
Definition sample_values : list Z :=
  map (fun n => Z.of_nat n - 2048) (seq 0 4096).

(** Two voltages agree within an absolute tolerance. *)
Definition within_tolerance (tol a b : float) : bool :=
  (PrimFloat.abs (a - b) <=? tol)%float.

(** ** tla2024.py: the pin names *)

Definition A0 : Z := 0.
Definition A1 : Z := 1.
Definition A2 : Z := 2.
Definition A3 : Z := 3.

(** ** A converter whose status bit never clears

    CONFIG always answers 0x8583 and writes are lost; used to run the
    busy-wait of the [mode] setter against a device that never reports
    the end of a conversion. *)

Module Stuck.

Definition device : Type := unit.

Definition dev_read (reg : Z) (d : device) : Z * device := (0x8583, d).

Definition dev_write (reg word : Z) (d : device) : device := d.

End Stuck.

(** ** Bus discipline *)

(** A stretch of register transactions in which every write goes to
    CONFIG, directly follows a read of CONFIG, and carries the PGA bits
    of the word just read. *)
Inductive rmw_log : list bus_event -> Prop :=
| rmw_nil : rmw_log []
| rmw_read reg word evs :
    rmw_log evs -> rmw_log (BusRead reg word :: evs)
| rmw_write word word' evs :
    get_bits_word _pga word' = get_bits_word _pga word ->
    rmw_log evs ->
    rmw_log (BusRead _CONFIG_REG word :: BusWrite _CONFIG_REG word' :: evs).

(** A computation whose register transactions, whenever it comes back,
    form such a stretch appended to the log. *)
Definition disciplined {Dev A} (m : M (TLA2024 Dev) A) : Prop :=
  forall self self',
    state_after (m self) = Some self' ->
    exists evs, bus_log self' = bus_log self ++ evs /\ rmw_log evs.


(** What a user can expect of the reading [v] for sample [s] at range
    code [r]: it lies between the reading of the most negative sample
    and the full scale in volts, and it has the sign of the sample. *)
Definition reading_in_range (r s : Z) : bool :=
  let fs := full_scale r in
  let v := scale_volts s fs in
  (scale_volts (-2048) fs <=? v)%float
  && (v <=? float_of_int fs / 1000.0)%float
  && (if s <? 0 then (v <? 0)%float else (0 <=? v)%float).

(** A sample and its negative give opposite readings. *)
Definition reading_odd (r s : Z) : bool :=
  let fs := full_scale r in
  (scale_volts (- s) fs =? - scale_volts s fs)%float.

(** All signed 12-bit values but the largest. *)
Definition lower_sample_values : list Z :=
  map (fun n => Z.of_nat n - 2048) (seq 0 4095).

(** From each sample to the next the reading strictly increases. *)
Definition reading_steps_up (r s : Z) : bool :=
  let fs := full_scale r in
  (scale_volts s fs <? scale_volts (s + 1) fs)%float.

(** The bits of a 16-bit word outside field [f]. *)
Definition outside_field (f : RWBits) (word : Z) : Z :=
  Z.land word (Z.lxor 0xFFFF (bit_mask f)).

(** * Properties *)

(** ** Running the monad *)

Lemma bind_ret {St A B} (m : M St A) (k : A -> M St B) s a s' :
  m s = Ret a s' -> (m ≫= k) s = k a s'.
Proof. intros H. unfold mbind, M_bind, bind. now rewrite H. Qed.

Lemma bind_raise {St A B} (m : M St A) (k : A -> M St B) s e s' :
  m s = Raise e s' -> (m ≫= k) s = Raise e s'.
Proof. intros H. unfold mbind, M_bind, bind. now rewrite H. Qed.

Lemma bind_hang {St A B} (m : M St A) (k : A -> M St B) s :
  m s = Hang -> (m ≫= k) s = Hang.
Proof. intros H. unfold mbind, M_bind, bind. now rewrite H. Qed.

Lemma bind_assoc {St A B C} (m : M St A) (k : A -> M St B) (k' : B -> M St C) s :
  ((m ≫= k) ≫= k') s = (m ≫= (fun a => k a ≫= k')) s.
Proof. unfold mbind, M_bind, bind. destruct (m s); reflexivity. Qed.

(** ** The 12-bit sample *)

Lemma word16_range z : 0 <= word16 z < 65536.
Proof. unfold word16. apply Z.mod_pos_bound. lia. Qed.

Lemma unpack_h_range w : 0 <= w < 65536 -> -32768 <= unpack_h w < 32768.
Proof. unfold unpack_h. destruct (32768 <=? w) eqn:E; lia. Qed.

(** The last step of [_read_lsb] is the identity on a value that
    already fits 12 signed bits, checked on each of the 4096 values. *)
Lemma sign_step_table :
  forallb (fun v => sign_step v =? v) sample_values = true.
Proof. vm_compute. reflexivity. Qed.

Lemma sign_step_id v : -2048 <= v <= 2047 -> sign_step v = v.
Proof.
  intros Hv.
  pose proof sign_step_table as T.
  rewrite forallb_forall in T.
  apply Z.eqb_eq, T.
  unfold sample_values. apply in_map_iff.
  exists (Z.to_nat (v + 2048)). split; [lia|].
  apply in_seq. lia.
Qed.

Lemma shiftr4_range raw :
  -32768 <= raw < 32768 -> -2048 <= Z.shiftr raw 4 <= 2047.
Proof.
  intros H. rewrite Z.shiftr_div_pow2 by lia.
  change (2 ^ 4) with 16.
  split.
  - apply Z.div_le_lower_bound; lia.
  - assert (raw / 16 < 2048); [apply Z.div_lt_upper_bound; lia | lia].
Qed.

Lemma decode_lsb_shift raw :
  -32768 <= raw < 32768 -> decode_lsb raw = Z.shiftr raw 4.
Proof.
  intros H. unfold decode_lsb. cbv zeta.
  apply (sign_step_id (Z.shiftr raw 4)), shiftr4_range, H.
Qed.

(** ** Membership in an enumeration *)

Lemma enumeration_members :
  CV.getattr Mode "CONTINUOUS" = Some CONTINUOUS /\
  CV.getattr Mode "ONE_SHOT" = Some ONE_SHOT /\
  CV.getattr Mux "MUX_AIN0_GND" = Some MUX_AIN0_GND /\
  CV.getattr DataRate "RATE_3300SPS" = Some RATE_3300SPS /\
  CV.getattr Range "RANGE_2_048V" = Some RANGE_2_048V.
Proof. vm_compute. repeat split. Qed.

Lemma add_value_string_is_Some l cls v :
  is_Some (CV.string (fold_left CV.add_value l cls) !! v)
  <-> In v (map code_of l) \/ is_Some (CV.string cls !! v).
Proof.
  revert cls. induction l as [|[[[name value] str] lsb] l IH]; intros cls; simpl.
  - split; [auto | intros [[] | H]; exact H].
  - rewrite IH. simpl. rewrite lookup_insert_is_Some.
    destruct (decide (value = v)) as [-> | Hne]; intuition congruence.
Qed.

Lemma is_valid_add_values l v :
  CV.is_valid (CV.add_values l) v = true <-> In v (map code_of l).
Proof.
  unfold CV.is_valid, CV.add_values.
  rewrite bool_decide_eq_true, add_value_string_is_Some. simpl.
  rewrite lookup_empty. split; [intros [H | H]; [exact H | destruct H; discriminate] | auto].
Qed.

Lemma Mode_is_valid v : CV.is_valid Mode v = true <-> v = 0 \/ v = 1.
Proof. unfold Mode. rewrite is_valid_add_values. simpl. intuition lia. Qed.

Lemma Range_is_valid v : CV.is_valid Range v = true <-> 0 <= v <= 5.
Proof. unfold Range. rewrite is_valid_add_values. simpl. intuition lia. Qed.

Lemma DataRate_is_valid v : CV.is_valid DataRate v = true <-> 0 <= v <= 6.
Proof. unfold DataRate. rewrite is_valid_add_values. simpl. intuition lia. Qed.

Lemma Mux_is_valid v : CV.is_valid Mux v = true <-> 0 <= v <= 7.
Proof. unfold Mux. rewrite is_valid_add_values. simpl. intuition lia. Qed.

(** ** Bit fields of a 16-bit word *)

Lemma land_word16 x m : 0 <= m < 65536 -> Z.land (word16 x) m = Z.land x m.
Proof.
  intros Hm. unfold word16. change 65536 with (2 ^ 16).
  rewrite <- Z.land_ones by lia.
  rewrite <- Z.land_assoc. f_equal.
  rewrite Z.land_comm, Z.land_ones by lia.
  apply Z.mod_small. exact Hm.
Qed.

(** Writing field [f] leaves the bits under a disjoint mask [m] alone. *)
Lemma set_bits_word_outside f value w m :
  0 <= m < 65536 ->
  Z.land (Z.lnot (bit_mask f)) m = m ->
  Z.land (Z.shiftl value (lowest_bit f)) m = 0 ->
  Z.land (set_bits_word f value w) m = Z.land w m.
Proof.
  intros Hm Hdis Hval. unfold set_bits_word.
  rewrite land_word16 by exact Hm.
  rewrite Z.land_lor_distr_l, Hval, Z.lor_0_r.
  now rewrite <- Z.land_assoc, Hdis.
Qed.

(** Writing field [f] puts the shifted value under its own mask. *)
Lemma set_bits_word_inside f value w :
  0 <= bit_mask f < 65536 ->
  Z.land (Z.shiftl value (lowest_bit f)) (bit_mask f) = Z.shiftl value (lowest_bit f) ->
  Z.land (set_bits_word f value w) (bit_mask f) = Z.shiftl value (lowest_bit f).
Proof.
  intros Hm Hval. unfold set_bits_word.
  rewrite land_word16 by exact Hm.
  rewrite Z.land_lor_distr_l, Hval.
  rewrite <- Z.land_assoc.
  replace (Z.land (Z.lnot (bit_mask f)) (bit_mask f)) with 0.
  - now rewrite Z.land_0_r, Z.lor_0_l.
  - symmetry. rewrite Z.land_comm. apply Z.land_lnot_diag.
Qed.

Lemma set_bit_word_outside b value w m :
  Z.land (Z.lnot (Z.shiftl 1 (bit b))) m = m ->
  Z.land (Z.shiftl 1 (bit b)) m = 0 ->
  Z.land (set_bit_word b value w) m = Z.land w m.
Proof.
  intros Hdis Hbit. unfold set_bit_word. destruct value.
  - now rewrite Z.land_lor_distr_l, Hbit, Z.lor_0_r.
  - now rewrite <- Z.land_assoc, Hdis.
Qed.

Lemma mux_read_back value w :
  0 <= value < 8 -> get_bits_word _mux (set_bits_word _mux value w) = value.
Proof.
  intros Hv. unfold get_bits_word.
  assert (value = 0 \/ value = 1 \/ value = 2 \/ value = 3 \/
          value = 4 \/ value = 5 \/ value = 6 \/ value = 7) as Hc by lia.
  rewrite set_bits_word_inside.
  - destruct Hc as [-> | [-> | [-> | [-> | [-> | [-> | [-> | ->]]]]]]]; reflexivity.
  - vm_compute. split; [discriminate | reflexivity].
  - destruct Hc as [-> | [-> | [-> | [-> | [-> | [-> | [-> | ->]]]]]]]; reflexivity.
Qed.

(** ** The driver on an arbitrary device *)

Section DriverFacts.

Variable Dev : Type.
Variable dev_read : Z -> Dev -> Z * Dev.
Variable dev_write : Z -> Z -> Dev -> Dev.

Implicit Type self : TLA2024 Dev.

Lemma logged_logged self d evs d' evs' :
  logged (logged self d evs) d' evs' = logged self d' (evs ++ evs').
Proof. unfold logged; simpl. now rewrite app_assoc. Qed.

Lemma read_register_run reg self bytes d :
  dev_read reg (i2c_device self) = (bytes, d) ->
  read_register dev_read reg self
  = Ret (word16 bytes) (logged self d [BusRead reg (word16 bytes)]).
Proof. intros H. unfold read_register. now rewrite H. Qed.

Lemma write_register_run reg word self :
  write_register dev_write reg word self
  = Ret tt (logged self (dev_write reg word (i2c_device self)) [BusWrite reg word]).
Proof. reflexivity. Qed.

Lemma RWBit_get_run b self bytes d :
  dev_read (bit_register b) (i2c_device self) = (bytes, d) ->
  RWBit_get dev_read b self
  = Ret (Z.testbit (word16 bytes) (bit b))
        (logged self d [BusRead (bit_register b) (word16 bytes)]).
Proof.
  intros H. unfold RWBit_get.
  now rewrite (bind_ret _ _ _ _ _ (read_register_run _ _ _ _ H)).
Qed.

Lemma RWBit_set_run b value self bytes d :
  dev_read (bit_register b) (i2c_device self) = (bytes, d) ->
  RWBit_set dev_read dev_write b value self
  = Ret tt (logged self
              (dev_write (bit_register b) (set_bit_word b value (word16 bytes)) d)
              [BusRead (bit_register b) (word16 bytes);
               BusWrite (bit_register b) (set_bit_word b value (word16 bytes))]).
Proof.
  intros H. unfold RWBit_set.
  rewrite (bind_ret _ _ _ _ _ (read_register_run _ _ _ _ H)).
  rewrite write_register_run, logged_logged. reflexivity.
Qed.

Lemma RWBits_get_run f self bytes d :
  dev_read (register_address f) (i2c_device self) = (bytes, d) ->
  RWBits_get dev_read f self
  = Ret (get_bits_word f (word16 bytes))
        (logged self d [BusRead (register_address f) (word16 bytes)]).
Proof.
  intros H. unfold RWBits_get.
  now rewrite (bind_ret _ _ _ _ _ (read_register_run _ _ _ _ H)).
Qed.

Lemma RWBits_set_run f value self bytes d :
  dev_read (register_address f) (i2c_device self) = (bytes, d) ->
  RWBits_set dev_read dev_write f value self
  = Ret tt (logged self
              (dev_write (register_address f)
                         (set_bits_word f value (word16 bytes)) d)
              [BusRead (register_address f) (word16 bytes);
               BusWrite (register_address f)
                        (set_bits_word f value (word16 bytes))]).
Proof.
  intros H. unfold RWBits_set.
  rewrite (bind_ret _ _ _ _ _ (read_register_run _ _ _ _ H)).
  rewrite write_register_run, logged_logged. reflexivity.
Qed.

Lemma read_lsb_run self bytes d :
  dev_read _DATA_REG (i2c_device self) = (bytes, d) ->
  _read_lsb dev_read self
  = Ret (decode_lsb (unpack_h (word16 bytes)))
        (logged self d [BusRead _DATA_REG (word16 bytes)]).
Proof.
  intros H. unfold _read_lsb, _raw_adc_read.
  rewrite bind_assoc.
  now rewrite (bind_ret _ _ _ _ _ (read_register_run _ _ _ _ H)).
Qed.

Lemma read_volts_run self bytes d r :
  dev_read _DATA_REG (i2c_device self) = (bytes, d) ->
  range self = Some r ->
  0 <= r ->
  _read_volts dev_read self
  = Ret (scale_volts (decode_lsb (unpack_h (word16 bytes))) (full_scale r))
        (logged self d [BusRead _DATA_REG (word16 bytes)]).
Proof.
  intros H Hr Hpos. unfold _read_volts.
  rewrite (bind_ret _ _ _ _ _ (read_lsb_run _ _ _ H)).
  unfold getattr_range, py_rshift, full_scale, mbind, M_bind, bind, mret, M_ret.
  simpl. rewrite Hr.
  destruct (r <? 0) eqn:E; [lia|]. reflexivity.
Qed.

(** *** Raw sample decode *)

Lemma top12_congruent w :
  0 <= w < 65536 -> Z.shiftr (unpack_h w) 4 mod 4096 = Z.shiftr w 4.
Proof.
  intros H. rewrite !Z.shiftr_div_pow2 by lia. change (2 ^ 4) with 16.
  assert (0 <= w / 16 < 4096) as Hq.
  { split; [apply Z.div_pos; lia | apply Z.div_lt_upper_bound; lia]. }
  unfold unpack_h. destruct (32768 <=? w).
  - replace (w - 65536) with (w + (-4096) * 16) by lia.
    rewrite Z.div_add by lia.
    replace (w / 16 + -4096) with (w / 16 + (-1) * 4096) by lia.
    rewrite Z.mod_add by lia. apply Z.mod_small, Hq.
  - apply Z.mod_small, Hq.
Qed.

(** C3. [_read_lsb] reads the DATA register once, shifts its signed
    16-bit value right by 4 and sign-extends on bit 11: the result is
    the top twelve bits of the register read as a 12-bit two's
    complement number, so the words 0x7FF0, 0x0000 and 0x8000 give
    2047, 0 and -2048. *)
Theorem read_lsb_sign_extends self bytes d :
  dev_read _DATA_REG (i2c_device self) = (bytes, d) ->
  let word := word16 bytes in
  let v := decode_lsb (unpack_h word) in
  _read_lsb dev_read self = Ret v (logged self d [BusRead _DATA_REG word]) /\
  v = Z.shiftr (unpack_h word) 4 /\
  -2048 <= v <= 2047 /\
  v mod 4096 = Z.shiftr word 4 /\
  (word = 0x7FF0 -> v = 2047) /\
  (word = 0x0000 -> v = 0) /\
  (word = 0x8000 -> v = -2048).
Proof.
  intros H word v.
  pose proof (word16_range bytes) as Hw. fold word in Hw.
  pose proof (unpack_h_range word Hw) as Hs.
  assert (v = Z.shiftr (unpack_h word) 4) as Hv
    by (apply decode_lsb_shift, Hs).
  split; [apply read_lsb_run, H|].
  split; [exact Hv|].
  split; [rewrite Hv; apply shiftr4_range, Hs|].
  split; [rewrite Hv; apply top12_congruent, Hw|].
  subst v.
  repeat split; intros ->; reflexivity.
Qed.

(** *** Voltage conversion *)

Lemma full_scale_table :
  map full_scale [0; 1; 2; 3; 4; 5] = [6144; 4096; 2048; 1024; 512; 256].
Proof. reflexivity. Qed.

Lemma Range_associated_table :
  map (fun r => CV.lsb Range !! r) [0; 1; 2; 3; 4; 5]
  = [Some (PyInt 3); Some (PyInt 2); Some (PyInt 1);
     Some (PyFloat 0.5); Some (PyFloat 0.25); Some (PyFloat 0.125)].
Proof. vm_compute. reflexivity. Qed.

(** C1, amended. [_read_volts] reads one sample, takes the full scale
    in millivolts as [8192 >> range] where the shift count is the range
    code itself (4096, 2048, 1024, 512, 256 for codes 1..5), except that
    it is the constant 6144 for code 0, and returns
    [(value_lsb / 2047.0) * v_fsr / 1000.0]. *)
Theorem read_volts_shifts_by_range_code self bytes d r :
  dev_read _DATA_REG (i2c_device self) = (bytes, d) ->
  range self = Some r ->
  0 <= r ->
  let value_lsb := decode_lsb (unpack_h (word16 bytes)) in
  let v_fsr := if r =? 0 then 6144 else Z.shiftr 8192 r in
  _read_volts dev_read self
  = Ret (float_of_int value_lsb / 2047.0 * float_of_int v_fsr / 1000.0)%float
        (logged self d [BusRead _DATA_REG (word16 bytes)]) /\
  (r <= 5 -> nth_error [6144; 4096; 2048; 1024; 512; 256] (Z.to_nat r) = Some v_fsr).
Proof.
  intros H Hr Hpos value_lsb v_fsr. split.
  - rewrite (read_volts_run _ _ _ _ H Hr Hpos). reflexivity.
  - intros Hle. subst v_fsr.
    assert (r = 0 \/ r = 1 \/ r = 2 \/ r = 3 \/ r = 4 \/ r = 5) as Hc by lia.
    destruct Hc as [-> | [-> | [-> | [-> | [-> | ->]]]]]; reflexivity.
Qed.

(** C2, amended. The reading is a function of the DATA word and the
    stored range alone: two instances with the same range whose devices
    answer with the same word return the same voltage, and neither call
    touches anything but the bus log. With range code 2 the samples 0
    and 2047 give exactly 0.0 and 2.048; the sample -2048 gives
    -2.049000488519785, which is (-2048 / 2047.0) * 2.048 and not within
    a millivolt of -2.048; with range code 0 the sample 2047 gives 6.144
    from the constant 6144. *)
Theorem read_volts_function_of_sample_and_range
    self1 self2 bytes1 bytes2 d1 d2 r :
  dev_read _DATA_REG (i2c_device self1) = (bytes1, d1) ->
  dev_read _DATA_REG (i2c_device self2) = (bytes2, d2) ->
  word16 bytes1 = word16 bytes2 ->
  range self1 = Some r ->
  range self2 = Some r ->
  0 <= r ->
  let v := scale_volts (decode_lsb (unpack_h (word16 bytes1))) (full_scale r) in
  _read_volts dev_read self1
  = Ret v (logged self1 d1 [BusRead _DATA_REG (word16 bytes1)]) /\
  _read_volts dev_read self2
  = Ret v (logged self2 d2 [BusRead _DATA_REG (word16 bytes1)]) /\
  scale_volts 0 (full_scale 2) = 0%float /\
  scale_volts 2047 (full_scale 2) = 2.048%float /\
  scale_volts (-2048) (full_scale 2) = (-2.049000488519785)%float /\
  within_tolerance 0.001 (scale_volts (-2048) (full_scale 2)) (-2.048) = false /\
  scale_volts 2047 (full_scale 0) = 6.144%float.
Proof.
  intros H1 H2 Hw Hr1 Hr2 Hpos v.
  split; [apply (read_volts_run _ _ _ _ H1 Hr1 Hpos)|].
  split.
  - rewrite (read_volts_run _ _ _ _ H2 Hr2 Hpos). subst v.
    now rewrite Hw.
  - repeat split; vm_compute; reflexivity.
Qed.

(** *** Setters *)

Lemma set_mode_rejects fuel m self :
  CV.is_valid Mode m = false ->
  set_mode dev_read dev_write fuel m self
  = Raise (AttributeError "``mode`` must be a valid ``Mode``") self.
Proof. intros H. unfold set_mode. now rewrite H. Qed.

Lemma set_input_channel_rejects channel self :
  ~ 0 <= channel < 4 ->
  set_input_channel dev_read dev_write channel self
  = Raise (AttributeError "``input_channel`` must be set to a number from 0 to 3") self.
Proof.
  intros H. unfold set_input_channel.
  replace ((0 <=? channel) && (channel <? 4)) with false; [reflexivity|].
  symmetry. apply andb_false_iff. lia.
Qed.

Lemma set_mux_rejects m self :
  CV.is_valid Mux m = false ->
  set_mux dev_read dev_write m self
  = Raise (AttributeError "``mux`` must be a valid ``Mux``") self.
Proof. intros H. unfold set_mux. now rewrite H. Qed.

Lemma set_data_rate_rejects rate self :
  CV.is_valid DataRate rate = false ->
  set_data_rate dev_read dev_write rate self
  = Raise (AttributeError "``data_rate`` must be a valid ``DataRate``") self.
Proof. intros H. unfold set_data_rate. now rewrite H. Qed.

Lemma set_input_channel_run channel self bytes d :
  0 <= channel < 4 ->
  dev_read _CONFIG_REG (i2c_device self) = (bytes, d) ->
  let w := set_bits_word _mux (4 + channel) (word16 bytes) in
  set_input_channel dev_read dev_write channel self
  = Ret tt (logged self (dev_write _CONFIG_REG w d)
              [BusRead _CONFIG_REG (word16 bytes); BusWrite _CONFIG_REG w]).
Proof.
  intros Hc H w. unfold set_input_channel.
  replace ((0 <=? channel) && (channel <? 4)) with true.
  - simpl. apply (RWBits_set_run _mux), H.
  - symmetry. apply andb_true_iff. lia.
Qed.

Lemma set_mux_run m self bytes d :
  CV.is_valid Mux m = true ->
  dev_read _CONFIG_REG (i2c_device self) = (bytes, d) ->
  let w := set_bits_word _mux m (word16 bytes) in
  set_mux dev_read dev_write m self
  = Ret tt (logged self (dev_write _CONFIG_REG w d)
              [BusRead _CONFIG_REG (word16 bytes); BusWrite _CONFIG_REG w]).
Proof.
  intros Hv H w. unfold set_mux. rewrite Hv. simpl.
  apply (RWBits_set_run _mux), H.
Qed.

Lemma set_data_rate_run rate self bytes d :
  CV.is_valid DataRate rate = true ->
  dev_read _CONFIG_REG (i2c_device self) = (bytes, d) ->
  let w := set_bits_word _data_rate rate (word16 bytes) in
  set_data_rate dev_read dev_write rate self
  = Ret tt (logged self (dev_write _CONFIG_REG w d)
              [BusRead _CONFIG_REG (word16 bytes); BusWrite _CONFIG_REG w]).
Proof.
  intros Hv H w. unfold set_data_rate. rewrite Hv. simpl.
  apply (RWBits_set_run _data_rate), H.
Qed.

Lemma set_mode_continuous_run fuel self bytes d :
  dev_read _CONFIG_REG (i2c_device self) = (bytes, d) ->
  let w := set_bit_word _mode false (word16 bytes) in
  set_mode dev_read dev_write fuel CONTINUOUS self
  = Ret tt (logged self (dev_write _CONFIG_REG w d)
              [BusRead _CONFIG_REG (word16 bytes); BusWrite _CONFIG_REG w]).
Proof.
  intros H w. unfold set_mode.
  replace (CV.is_valid Mode CONTINUOUS) with true by (vm_compute; reflexivity).
  simpl. apply (RWBit_set_run _mode), H.
Qed.

(** The four property setters raise before any register transaction:
    the instance, its device and the bus log are as before the call. *)
Lemma property_setters_reject_untouched fuel value self :
  (CV.is_valid Mode value = false ->
   exists msg, set_mode dev_read dev_write fuel value self
               = Raise (AttributeError msg) self) /\
  (~ 0 <= value < 4 ->
   exists msg, set_input_channel dev_read dev_write value self
               = Raise (AttributeError msg) self) /\
  (CV.is_valid Mux value = false ->
   exists msg, set_mux dev_read dev_write value self
               = Raise (AttributeError msg) self) /\
  (CV.is_valid DataRate value = false ->
   exists msg, set_data_rate dev_read dev_write value self
               = Raise (AttributeError msg) self).
Proof.
  repeat split; intros H; eexists.
  - apply set_mode_rejects, H.
  - apply set_input_channel_rejects, H.
  - apply set_mux_rejects, H.
  - apply set_data_rate_rejects, H.
Qed.

(** C4, the defect. The class has no [range] setter: assigning the
    value 7, which is no member of [Range], raises nothing and is
    stored as the instance attribute, without a register transaction. *)
Theorem range_store_is_not_validated fuel self :
  CV.is_valid Range 7 = false /\
  call dev_read dev_write fuel (SetRange 7) self
  = Ret PyNone (mkTLA2024 (i2c_device self) (bus_log self)
                          (_last_one_shot self) (Some 7)).
Proof. split; [vm_compute; reflexivity | reflexivity]. Qed.

(** C5, the defect. After [input_channel = c] with [c] in 0..3 the MUX
    field written is [4 + c], and on a device that answers with the MUX
    bits it was sent, reading [input_channel] returns that register
    code [4 + c], not the channel index [c]. *)
Theorem input_channel_reads_mux_code channel self bytes d bytes' d' :
  0 <= channel < 4 ->
  dev_read _CONFIG_REG (i2c_device self) = (bytes, d) ->
  let w := set_bits_word _mux (4 + channel) (word16 bytes) in
  let self1 := logged self (dev_write _CONFIG_REG w d)
                 [BusRead _CONFIG_REG (word16 bytes); BusWrite _CONFIG_REG w] in
  dev_read _CONFIG_REG (i2c_device self1) = (bytes', d') ->
  get_bits_word _mux (word16 bytes') = get_bits_word _mux w ->
  set_input_channel dev_read dev_write channel self = Ret tt self1 /\
  get_bits_word _mux w = 4 + channel /\
  input_channel dev_read self1
  = Ret (4 + channel) (logged self1 d' [BusRead _CONFIG_REG (word16 bytes')]) /\
  4 + channel <> channel.
Proof.
  intros Hc H w self1 H' Hback.
  assert (get_bits_word _mux w = 4 + channel) as Hw
    by (apply mux_read_back; lia).
  split; [apply set_input_channel_run; assumption|].
  split; [exact Hw|].
  split; [|lia].
  unfold input_channel.
  rewrite (RWBits_get_run _mux _ _ _ H'). simpl. now rewrite Hback, Hw.
Qed.

(** *** Construction *)

Lemma pga_kept_by_mode_write value w :
  get_bits_word _pga (set_bit_word _mode value w) = get_bits_word _pga w.
Proof.
  unfold get_bits_word. f_equal.
  apply set_bit_word_outside; reflexivity.
Qed.

Lemma pga_kept_by_os_write value w :
  get_bits_word _pga (set_bit_word _os value w) = get_bits_word _pga w.
Proof.
  unfold get_bits_word. f_equal.
  apply set_bit_word_outside; reflexivity.
Qed.

Lemma pga_kept_by_mux_write value w :
  0 <= value < 8 ->
  get_bits_word _pga (set_bits_word _mux value w) = get_bits_word _pga w.
Proof.
  intros Hv. unfold get_bits_word. f_equal.
  apply set_bits_word_outside; [vm_compute; split; [discriminate | reflexivity] | reflexivity |].
  assert (value = 0 \/ value = 1 \/ value = 2 \/ value = 3 \/
          value = 4 \/ value = 5 \/ value = 6 \/ value = 7) as Hc by lia.
  destruct Hc as [-> | [-> | [-> | [-> | [-> | [-> | [-> | ->]]]]]]]; reflexivity.
Qed.

Lemma pga_kept_by_data_rate_write value w :
  0 <= value < 8 ->
  get_bits_word _pga (set_bits_word _data_rate value w) = get_bits_word _pga w.
Proof.
  intros Hv. unfold get_bits_word. f_equal.
  apply set_bits_word_outside; [vm_compute; split; [discriminate | reflexivity] | reflexivity |].
  assert (value = 0 \/ value = 1 \/ value = 2 \/ value = 3 \/
          value = 4 \/ value = 5 \/ value = 6 \/ value = 7) as Hc by lia.
  destruct Hc as [-> | [-> | [-> | [-> | [-> | [-> | [-> | ->]]]]]]]; reflexivity.
Qed.

Lemma init_run fuel i2c bytes0 d0 bytes1 d1 bytes2 d2 :
  dev_read _CONFIG_REG i2c = (bytes0, d0) ->
  let w0 := set_bit_word _mode false (word16 bytes0) in
  dev_read _CONFIG_REG (dev_write _CONFIG_REG w0 d0) = (bytes1, d1) ->
  let w1 := set_bits_word _mux MUX_AIN0_GND (word16 bytes1) in
  dev_read _CONFIG_REG (dev_write _CONFIG_REG w1 d1) = (bytes2, d2) ->
  let w2 := set_bits_word _data_rate RATE_3300SPS (word16 bytes2) in
  __init__ dev_read dev_write fuel i2c
  = Ret tt
      (mkTLA2024 (dev_write _CONFIG_REG w2 d2)
         [BusRead _CONFIG_REG (word16 bytes0); BusWrite _CONFIG_REG w0;
          BusRead _CONFIG_REG (word16 bytes1); BusWrite _CONFIG_REG w1;
          BusRead _CONFIG_REG (word16 bytes2); BusWrite _CONFIG_REG w2]
         None (Some RANGE_2_048V)).
Proof.
  intros H0 w0 H1 w1 H2 w2. unfold __init__.
  erewrite bind_ret by (apply set_mode_continuous_run; exact H0).
  erewrite bind_ret
    by (apply set_mux_run; [vm_compute; reflexivity | exact H1]).
  erewrite bind_ret
    by (apply set_data_rate_run; [vm_compute; reflexivity | exact H2]).
  reflexivity.
Qed.

Lemma init_returns fuel i2c :
  exists self0, __init__ dev_read dev_write fuel i2c = Ret tt self0 /\
                _last_one_shot self0 = None /\
                range self0 = Some RANGE_2_048V.
Proof.
  destruct (dev_read _CONFIG_REG i2c) as [bytes0 d0] eqn:H0.
  destruct (dev_read _CONFIG_REG
              (dev_write _CONFIG_REG (set_bit_word _mode false (word16 bytes0)) d0))
    as [bytes1 d1] eqn:H1.
  destruct (dev_read _CONFIG_REG
              (dev_write _CONFIG_REG
                 (set_bits_word _mux MUX_AIN0_GND (word16 bytes1)) d1))
    as [bytes2 d2] eqn:H2.
  eexists. split; [apply (init_run fuel i2c _ _ _ _ _ _ H0 H1 H2)|].
  split; reflexivity.
Qed.

(** C6, the defect. [__init__] issues three read-modify-write
    transactions on CONFIG, for the mode bit, the MUX field and the
    data-rate field, and none for the PGA (range) field: each word
    written carries the PGA bits of the word just read. The range 2 is
    kept as an instance attribute only, and reading it back is no bus
    transaction. *)
Theorem init_never_writes_pga fuel i2c bytes0 d0 bytes1 d1 bytes2 d2 :
  dev_read _CONFIG_REG i2c = (bytes0, d0) ->
  let w0 := set_bit_word _mode false (word16 bytes0) in
  dev_read _CONFIG_REG (dev_write _CONFIG_REG w0 d0) = (bytes1, d1) ->
  let w1 := set_bits_word _mux MUX_AIN0_GND (word16 bytes1) in
  dev_read _CONFIG_REG (dev_write _CONFIG_REG w1 d1) = (bytes2, d2) ->
  let w2 := set_bits_word _data_rate RATE_3300SPS (word16 bytes2) in
  let self :=
    mkTLA2024 (dev_write _CONFIG_REG w2 d2)
      [BusRead _CONFIG_REG (word16 bytes0); BusWrite _CONFIG_REG w0;
       BusRead _CONFIG_REG (word16 bytes1); BusWrite _CONFIG_REG w1;
       BusRead _CONFIG_REG (word16 bytes2); BusWrite _CONFIG_REG w2]
      None (Some RANGE_2_048V) in
  __init__ dev_read dev_write fuel i2c = Ret tt self /\
  get_bits_word _pga w0 = get_bits_word _pga (word16 bytes0) /\
  get_bits_word _pga w1 = get_bits_word _pga (word16 bytes1) /\
  get_bits_word _pga w2 = get_bits_word _pga (word16 bytes2) /\
  call dev_read dev_write fuel GetRange self = Ret (PyInt 2) self.
Proof.
  intros H0 w0 H1 w1 H2 w2 self.
  split; [|split; [|split; [|split]]].
  - apply (init_run fuel i2c _ _ _ _ _ _ H0 H1 H2).
  - apply pga_kept_by_mode_write.
  - apply pga_kept_by_mux_write. unfold MUX_AIN0_GND. lia.
  - apply pga_kept_by_data_rate_write. unfold RATE_3300SPS. lia.
  - reflexivity.
Qed.

(** *** The busy-wait on the status bit *)

Lemma wait_os_run self evs d' :
  os_polls dev_read (i2c_device self) evs d' ->
  forall fuel, (length evs <= fuel)%nat ->
  wait_os dev_read fuel self = Ret tt (logged self d' evs).
Proof.
  intros H. remember (i2c_device self) as d eqn:Hd.
  revert self Hd.
  induction H as [d bytes d' Hread Hbit | d bytes d' evs d'' Hread Hbit Hrest IH];
    intros self -> fuel Hfuel; (destruct fuel as [|fuel]; [simpl in Hfuel; lia|]);
    cbn [wait_os]; erewrite bind_ret by (apply (RWBit_get_run _os); exact Hread);
    change (bit _os) with 15; change (bit_register _os) with _CONFIG_REG;
    rewrite Hbit; cbv beta iota.
  - reflexivity.
  - rewrite (IH (logged self d' [BusRead _CONFIG_REG (word16 bytes)]) eq_refl fuel)
      by (simpl in Hfuel; lia).
    now rewrite logged_logged.
Qed.

(** Conversely, whenever the loop comes back it returned after such a
    sequence of polls; it never raises. *)
Lemma wait_os_returns fuel self o :
  wait_os dev_read fuel self = o ->
  o = Hang \/
  exists evs d', os_polls dev_read (i2c_device self) evs d' /\
                 (length evs <= fuel)%nat /\
                 o = Ret tt (logged self d' evs).
Proof.
  revert self o. induction fuel as [|fuel IH]; intros self o <-; cbn [wait_os].
  - now left.
  - destruct (dev_read _CONFIG_REG (i2c_device self)) as [bytes d] eqn:Hread.
    erewrite bind_ret by (apply (RWBit_get_run _os); exact Hread).
    change (bit _os) with 15. change (bit_register _os) with _CONFIG_REG.
    destruct (Z.testbit (word16 bytes) 15) eqn:Hbit; cbv beta iota.
    + destruct (IH (logged self d [BusRead _CONFIG_REG (word16 bytes)]) _ eq_refl)
        as [Hhang | (evs & d' & Hp & Hlen & Hret)].
      * left. exact Hhang.
      * right. exists (BusRead _CONFIG_REG (word16 bytes) :: evs), d'.
        split; [eapply os_polls_busy; eassumption|].
        split; [simpl; lia|].
        rewrite Hret. now rewrite logged_logged.
    + right. exists [BusRead _CONFIG_REG (word16 bytes)], d.
      split; [now apply os_polls_clear|]. split; [simpl; lia | reflexivity].
Qed.

(** C7. Setting CONTINUOUS is one read-modify-write of the mode bit and
    returns whatever the fuel, so without waiting. Setting ONE_SHOT
    sets the mode bit, then sets the status bit, then reads the status
    bit until it reads clear, then reads DATA once and stores the
    converted voltage in [_last_one_shot]; the call returns only after
    all of that, and it does return as soon as the fuel covers the
    polls the device needs. *)
Theorem set_mode_protocol self bytes0 d0 bytes1 d1 evs d3 bytes4 d4 r :
  dev_read _CONFIG_REG (i2c_device self) = (bytes0, d0) ->
  let c0 := set_bit_word _mode false (word16 bytes0) in
  let w0 := set_bit_word _mode true (word16 bytes0) in
  dev_read _CONFIG_REG (dev_write _CONFIG_REG w0 d0) = (bytes1, d1) ->
  let w1 := set_bit_word _os true (word16 bytes1) in
  os_polls dev_read (dev_write _CONFIG_REG w1 d1) evs d3 ->
  dev_read _DATA_REG d3 = (bytes4, d4) ->
  range self = Some r ->
  0 <= r ->
  (forall fuel,
     set_mode dev_read dev_write fuel CONTINUOUS self
     = Ret tt (logged self (dev_write _CONFIG_REG c0 d0)
                 [BusRead _CONFIG_REG (word16 bytes0); BusWrite _CONFIG_REG c0])) /\
  (forall fuel, (length evs <= fuel)%nat ->
     set_mode dev_read dev_write fuel ONE_SHOT self
     = Ret tt
         (mkTLA2024 d4
            (bus_log self
             ++ [BusRead _CONFIG_REG (word16 bytes0); BusWrite _CONFIG_REG w0;
                 BusRead _CONFIG_REG (word16 bytes1); BusWrite _CONFIG_REG w1]
             ++ evs
             ++ [BusRead _DATA_REG (word16 bytes4)])
            (Some (scale_volts (decode_lsb (unpack_h (word16 bytes4)))
                               (full_scale r)))
            (Some r))).
Proof.
  intros H0 c0 w0 H1 w1 Hpolls H4 Hr Hpos. split.
  - intros fuel. apply set_mode_continuous_run, H0.
  - intros fuel Hfuel. unfold set_mode.
    replace (CV.is_valid Mode ONE_SHOT) with true by (vm_compute; reflexivity).
    simpl.
    erewrite bind_ret by (apply (RWBit_set_run _mode); exact H0).
    erewrite bind_ret by (apply (RWBit_set_run _os); exact H1).
    erewrite bind_ret by (apply wait_os_run; [exact Hpolls | exact Hfuel]).
    erewrite bind_ret by (apply read_volts_run; [exact H4 | exact Hr | exact Hpos]).
    unfold set_last_one_shot, logged. simpl. rewrite Hr.
    f_equal. f_equal. rewrite <- !app_assoc. reflexivity.
Qed.

(** *** What leaves the cached one-shot result alone *)

Lemma keeps_ret {A} (a : A) : keeps_one_shot (mret a : M (TLA2024 Dev) A).
Proof. intros self. now exists self. Qed.

Lemma keeps_raise {A} e : keeps_one_shot (raise e : M (TLA2024 Dev) A).
Proof. intros self. now exists self. Qed.

Lemma keeps_bind {A B} (m : M (TLA2024 Dev) A) (k : A -> M (TLA2024 Dev) B) :
  keeps_one_shot m -> (forall a, keeps_one_shot (k a)) -> keeps_one_shot (m ≫= k).
Proof.
  intros Hm Hk self. destruct (Hm self) as (self1 & Hs & Hl).
  unfold mbind, M_bind, bind.
  destruct (m self) as [a s | e s |]; simpl in Hs; try discriminate.
  - injection Hs as ->. destruct (Hk a self1) as (self2 & Hs2 & Hl2).
    exists self2. split; [exact Hs2 | congruence].
  - injection Hs as ->. now exists self1.
Qed.

Lemma keeps_read_register reg : keeps_one_shot (read_register dev_read reg).
Proof.
  intros self. unfold read_register.
  destruct (dev_read reg (i2c_device self)) as [bytes d].
  eexists. split; reflexivity.
Qed.

Lemma keeps_write_register reg word : keeps_one_shot (write_register dev_write reg word).
Proof. intros self. eexists. split; reflexivity. Qed.

Lemma keeps_getattr_range : keeps_one_shot (@getattr_range Dev).
Proof.
  intros self. unfold getattr_range. destruct (range self); now exists self.
Qed.

Lemma keeps_setattr_range value : keeps_one_shot (@setattr_range Dev value).
Proof. intros self. eexists. split; reflexivity. Qed.

Lemma keeps_get_last_one_shot : keeps_one_shot (@get_last_one_shot Dev).
Proof. intros self. now exists self. Qed.

Lemma keeps_py_rshift a b : keeps_one_shot (py_rshift a b : M (TLA2024 Dev) Z).
Proof. unfold py_rshift. destruct (b <? 0); [apply keeps_raise | apply keeps_ret]. Qed.

Lemma keeps_RWBit_get b : keeps_one_shot (RWBit_get dev_read b).
Proof.
  apply keeps_bind; [apply keeps_read_register | intros; apply keeps_ret].
Qed.

Lemma keeps_RWBit_set b value : keeps_one_shot (RWBit_set dev_read dev_write b value).
Proof.
  apply keeps_bind; [apply keeps_read_register | intros; apply keeps_write_register].
Qed.

Lemma keeps_RWBits_get f : keeps_one_shot (RWBits_get dev_read f).
Proof.
  apply keeps_bind; [apply keeps_read_register | intros; apply keeps_ret].
Qed.

Lemma keeps_RWBits_set f value : keeps_one_shot (RWBits_set dev_read dev_write f value).
Proof.
  apply keeps_bind; [apply keeps_read_register | intros; apply keeps_write_register].
Qed.

Lemma keeps_read_volts : keeps_one_shot (_read_volts dev_read).
Proof.
  unfold _read_volts, _read_lsb, _raw_adc_read.
  repeat (apply keeps_bind; [|intros]);
    auto using keeps_read_register, keeps_ret, keeps_getattr_range, keeps_py_rshift.
Qed.

Lemma keeps_voltage : keeps_one_shot (voltage dev_read).
Proof.
  unfold voltage, mode. apply keeps_bind; [apply keeps_RWBit_get|].
  intros m. destruct (Z.b2z m =? ONE_SHOT).
  - apply keeps_get_last_one_shot.
  - apply keeps_bind; [apply keeps_read_volts | intros; apply keeps_ret].
Qed.

Lemma keeps_set_input_channel channel :
  keeps_one_shot (set_input_channel dev_read dev_write channel).
Proof.
  unfold set_input_channel.
  destruct (negb _); [apply keeps_raise | apply keeps_RWBits_set].
Qed.

Lemma keeps_set_mux m : keeps_one_shot (set_mux dev_read dev_write m).
Proof.
  unfold set_mux. destruct (negb _); [apply keeps_raise | apply keeps_RWBits_set].
Qed.

Lemma keeps_set_data_rate rate : keeps_one_shot (set_data_rate dev_read dev_write rate).
Proof.
  unfold set_data_rate.
  destruct (negb _); [apply keeps_raise | apply keeps_RWBits_set].
Qed.

Lemma keeps_set_mode fuel m :
  (m =? ONE_SHOT) = false -> keeps_one_shot (set_mode dev_read dev_write fuel m).
Proof.
  intros Hm. unfold set_mode.
  destruct (CV.is_valid Mode m) eqn:Hv; simpl; [|apply keeps_raise].
  apply Mode_is_valid in Hv. unfold ONE_SHOT in Hm.
  destruct Hv as [-> | ->]; [apply keeps_RWBit_set | discriminate].
Qed.

Lemma keeps_call fuel c :
  takes_one_shot c = false -> keeps_one_shot (call dev_read dev_write fuel c).
Proof.
  intros Hc. destruct c; simpl in Hc; try discriminate; unfold call;
    (apply keeps_bind; [|intros; apply keeps_ret]);
    unfold input_channel, mode, data_rate, mux;
    auto using keeps_voltage, keeps_RWBits_get, keeps_RWBit_get,
      keeps_set_input_channel, keeps_set_mode, keeps_set_data_rate,
      keeps_set_mux, keeps_getattr_range, keeps_setattr_range.
Qed.

Lemma keeps_run_calls fuel cs self :
  forallb (fun c => negb (takes_one_shot c)) cs = true ->
  exists self', run_calls dev_read dev_write fuel cs self = Some self' /\
                _last_one_shot self' = _last_one_shot self.
Proof.
  revert self. induction cs as [|c cs IH]; intros self Hcs; simpl.
  - now exists self.
  - simpl in Hcs. apply andb_true_iff in Hcs as [Hc Hcs].
    apply negb_true_iff in Hc.
    destruct (keeps_call fuel c Hc self) as (self1 & Hs & Hl).
    rewrite Hs. destruct (IH self1 Hcs) as (self2 & Hr & Hl2).
    exists self2. split; [exact Hr | congruence].
Qed.

(** *** Reading the voltage *)

Lemma voltage_one_shot_run self bytes d :
  dev_read _CONFIG_REG (i2c_device self) = (bytes, d) ->
  Z.testbit (word16 bytes) 8 = true ->
  voltage dev_read self
  = Ret (_last_one_shot self) (logged self d [BusRead _CONFIG_REG (word16 bytes)]).
Proof.
  intros H Hbit. unfold voltage, mode.
  erewrite bind_ret by (apply (RWBit_get_run _mode); exact H).
  change (bit _mode) with 8. rewrite Hbit. reflexivity.
Qed.

Lemma voltage_continuous_run self bytes d raw d' r :
  dev_read _CONFIG_REG (i2c_device self) = (bytes, d) ->
  Z.testbit (word16 bytes) 8 = false ->
  dev_read _DATA_REG d = (raw, d') ->
  range self = Some r ->
  0 <= r ->
  voltage dev_read self
  = Ret (Some (scale_volts (decode_lsb (unpack_h (word16 raw))) (full_scale r)))
        (logged self d' [BusRead _CONFIG_REG (word16 bytes);
                         BusRead _DATA_REG (word16 raw)]).
Proof.
  intros H Hbit Hraw Hr Hpos. unfold voltage, mode.
  erewrite bind_ret by (apply (RWBit_get_run _mode); exact H).
  change (bit _mode) with 8. rewrite Hbit. cbv beta iota.
  change (Z.b2z false =? ONE_SHOT) with false. cbv beta iota.
  erewrite bind_ret by (apply read_volts_run; [exact Hraw | exact Hr | exact Hpos]).
  unfold mret, M_ret. now rewrite logged_logged.
Qed.

(** C8. With the mode bit reading ONE_SHOT, [voltage] returns the
    cached [_last_one_shot] after that one CONFIG read: no write, no
    DATA read, the cache unchanged; and it keeps returning that same
    value after any calls that do not run the one-shot branch of the
    mode setter. With the mode bit reading CONTINUOUS, [voltage] reads
    DATA and returns its conversion, and the cache is left as it was. *)
Theorem voltage_cached_or_live self bytes d :
  dev_read _CONFIG_REG (i2c_device self) = (bytes, d) ->
  let self1 := logged self d [BusRead _CONFIG_REG (word16 bytes)] in
  (Z.testbit (word16 bytes) 8 = true ->
   voltage dev_read self = Ret (_last_one_shot self) self1 /\
   forall fuel cs,
     forallb (fun c => negb (takes_one_shot c)) cs = true ->
     exists self2,
       run_calls dev_read dev_write fuel cs self1 = Some self2 /\
       forall bytes' d',
         dev_read _CONFIG_REG (i2c_device self2) = (bytes', d') ->
         Z.testbit (word16 bytes') 8 = true ->
         voltage dev_read self2
         = Ret (_last_one_shot self)
               (logged self2 d' [BusRead _CONFIG_REG (word16 bytes')])) /\
  (Z.testbit (word16 bytes) 8 = false ->
   forall raw d' r,
     dev_read _DATA_REG d = (raw, d') ->
     range self = Some r ->
     0 <= r ->
     voltage dev_read self
     = Ret (Some (scale_volts (decode_lsb (unpack_h (word16 raw))) (full_scale r)))
           (mkTLA2024 d'
              (bus_log self ++ [BusRead _CONFIG_REG (word16 bytes);
                                BusRead _DATA_REG (word16 raw)])
              (_last_one_shot self) (range self))).
Proof.
  intros H self1. split.
  - intros Hbit. split; [apply voltage_one_shot_run; assumption|].
    intros fuel cs Hcs.
    destruct (keeps_run_calls fuel cs self1 Hcs) as (self2 & Hrun & Hl).
    exists self2. split; [exact Hrun|].
    intros bytes' d' H' Hbit'.
    rewrite (voltage_one_shot_run self2 bytes' d' H' Hbit').
    now rewrite Hl.
  - intros Hbit raw d' r Hraw Hr Hpos.
    rewrite (voltage_continuous_run self bytes d raw d' r H Hbit Hraw Hr Hpos).
    reflexivity.
Qed.

(** C9. [read(channel)] and the three client steps
    [input_channel = channel; mode = ONE_SHOT; voltage] have the same
    outcome on every instance and device, for every fuel: the same
    value returned or exception raised, and the same instance, device
    state and bus log afterwards. *)
Theorem read_is_the_composite fuel channel self :
  call dev_read dev_write fuel (CallRead channel) self
  = (call dev_read dev_write fuel (SetInputChannel channel);;
     call dev_read dev_write fuel (SetMode ONE_SHOT);;
     call dev_read dev_write fuel GetVoltage) self.
Proof.
  unfold call, read, mbind, M_bind, bind, mret, M_ret.
  destruct (set_input_channel dev_read dev_write channel self); try reflexivity.
  destruct (set_mode dev_read dev_write fuel ONE_SHOT s); reflexivity.
Qed.

(** C10. [__init__] leaves [_last_one_shot] empty, every call other
    than [mode = ONE_SHOT] and [read] comes back and leaves it as it
    was, and so after construction and any such calls a [voltage] read
    that finds the mode bit set, whatever state [d] the device is in by
    then, returns [None]. *)
Theorem voltage_none_before_one_shot fuel i2c cs :
  forallb (fun c => negb (takes_one_shot c)) cs = true ->
  (forall c, takes_one_shot c = false ->
             keeps_one_shot (call dev_read dev_write fuel c)) /\
  exists self0 self,
    __init__ dev_read dev_write fuel i2c = Ret tt self0 /\
    _last_one_shot self0 = None /\
    run_calls dev_read dev_write fuel cs self0 = Some self /\
    _last_one_shot self = None /\
    forall d bytes d',
      dev_read _CONFIG_REG d = (bytes, d') ->
      Z.testbit (word16 bytes) 8 = true ->
      voltage dev_read (mkTLA2024 d (bus_log self) (_last_one_shot self) (range self))
      = Ret None
            (mkTLA2024 d' (bus_log self ++ [BusRead _CONFIG_REG (word16 bytes)])
               None (range self)).
Proof.
  intros Hcs. split; [intros c Hc; apply keeps_call, Hc|].
  destruct (init_returns fuel i2c) as (self0 & Hinit & Hnone & _).
  destruct (keeps_run_calls fuel cs self0 Hcs) as (self & Hrun & Hl).
  exists self0, self.
  split; [exact Hinit|]. split; [exact Hnone|]. split; [exact Hrun|].
  split; [congruence|].
  intros d bytes d' H Hbit.
  rewrite (voltage_one_shot_run
             (mkTLA2024 d (bus_log self) (_last_one_shot self) (range self))
             bytes d' H Hbit).
  unfold logged. simpl. rewrite Hl, Hnone. reflexivity.
Qed.

End DriverFacts.

(** ** Runs on the simulated converter *)

Lemma read_lsb_sign_extends_witness :
  let self := Sim.instance (Sim.idle 0x0583 [0x8000]) 2 in
  _read_lsb Sim.dev_read self
  = Ret (-2048) (logged self (Sim.idle 0x0583 []) [BusRead _DATA_REG 0x8000]).
Proof.
  exact (proj1 (read_lsb_sign_extends Sim.device Sim.dev_read
                  (Sim.instance (Sim.idle 0x0583 [0x8000]) 2)
                  0x8000 (Sim.idle 0x0583 []) eq_refl)).
Defined.

Lemma read_volts_shifts_by_range_code_witness :
  let self := Sim.instance (Sim.idle 0x0583 [0x7FF0]) 1 in
  _read_volts Sim.dev_read self
  = Ret (float_of_int 2047 / 2047.0 * float_of_int 4096 / 1000.0)%float
        (logged self (Sim.idle 0x0583 []) [BusRead _DATA_REG 0x7FF0]).
Proof.
  refine (proj1 (read_volts_shifts_by_range_code Sim.device Sim.dev_read
                   (Sim.instance (Sim.idle 0x0583 [0x7FF0]) 1)
                   0x7FF0 (Sim.idle 0x0583 []) 1 eq_refl eq_refl _)).
  lia.
Defined.

(** C1 as stated fails at range code 2: the value stored with
    [RANGE_2_048V] is 1, which as a shift count would give a full scale
    of 4096 and a reading of 4.096 for the sample 2047; the code shifts
    by the code 2 and returns 2.048. *)
Lemma read_volts_associated_shift_counterexample :
  let self := Sim.instance (Sim.idle 0x0583 [0x7FF0]) RANGE_2_048V in
  Range_associated_shift RANGE_2_048V = Some 1 /\
  full_scale_by_associated_shift RANGE_2_048V = Some 4096 /\
  scale_volts 2047 4096 = 4.096%float /\
  _read_volts Sim.dev_read self
  = Ret 2.048%float (logged self (Sim.idle 0x0583 []) [BusRead _DATA_REG 0x7FF0]) /\
  2.048%float <> scale_volts 2047 4096.
Proof.
  repeat split; try (vm_compute; reflexivity).
  vm_compute. discriminate.
Qed.

Lemma read_volts_function_of_sample_and_range_witness :
  let self1 := Sim.instance (Sim.idle 0x0583 [0x8000]) 2 in
  let self2 := mkTLA2024 (Sim.idle 0x8583 [0x8000; 0x0010])
                 [BusRead _CONFIG_REG 0x0583] (Some 1.5%float) (Some 2) in
  _read_volts Sim.dev_read self1
  = Ret (-2.049000488519785)%float
        (logged self1 (Sim.idle 0x0583 []) [BusRead _DATA_REG 0x8000]) /\
  _read_volts Sim.dev_read self2
  = Ret (-2.049000488519785)%float
        (logged self2 (Sim.idle 0x8583 [0x0010]) [BusRead _DATA_REG 0x8000]).
Proof.
  pose proof (read_volts_function_of_sample_and_range Sim.device Sim.dev_read
                (Sim.instance (Sim.idle 0x0583 [0x8000]) 2)
                (mkTLA2024 (Sim.idle 0x8583 [0x8000; 0x0010])
                   [BusRead _CONFIG_REG 0x0583] (Some 1.5%float) (Some 2))
                0x8000 0x8000 (Sim.idle 0x0583 []) (Sim.idle 0x8583 [0x0010]) 2
                eq_refl eq_refl eq_refl eq_refl eq_refl) as H.
  assert (0 <= 2) as Hpos by lia.
  destruct (H Hpos) as (Ha & Hb & _).
  split; [exact Ha | exact Hb].
Defined.

(** C2 as stated fails at the sample -2048 with range code 2: the
    reading is about -2.049, more than a millivolt away from -2.048. *)
Lemma read_volts_negative_full_scale_counterexample :
  let self := Sim.instance (Sim.idle 0x0583 [0x8000]) 2 in
  exists v self',
    _read_volts Sim.dev_read self = Ret v self' /\
    v = (-2.049000488519785)%float /\
    within_tolerance 0.001 v (-2.048) = false.
Proof.
  eexists. eexists. repeat split; vm_compute; reflexivity.
Qed.

Lemma input_channel_reads_mux_code_witness :
  let self := Sim.instance (Sim.idle 0x0583 []) 2 in
  let self1 := logged self (Sim.idle 0x4583 [])
                 [BusRead _CONFIG_REG 0x0583; BusWrite _CONFIG_REG 0x4583] in
  set_input_channel Sim.dev_read Sim.dev_write 0 self = Ret tt self1 /\
  input_channel Sim.dev_read self1
  = Ret 4 (logged self1 (Sim.idle 0x4583 []) [BusRead _CONFIG_REG 0x4583]).
Proof.
  assert (0 <= 0 < 4) as Hc by lia.
  destruct (input_channel_reads_mux_code Sim.device Sim.dev_read Sim.dev_write
              0 (Sim.instance (Sim.idle 0x0583 []) 2)
              0x0583 (Sim.idle 0x0583 []) 0x4583 (Sim.idle 0x4583 [])
              Hc eq_refl eq_refl eq_refl) as (Hset & _ & Hget & _).
  split; [exact Hset | exact Hget].
Defined.

Lemma init_never_writes_pga_witness :
  let self :=
    mkTLA2024 (Sim.idle 0x40C0 [])
      [BusRead _CONFIG_REG 0x0000; BusWrite _CONFIG_REG 0x0000;
       BusRead _CONFIG_REG 0x0000; BusWrite _CONFIG_REG 0x4000;
       BusRead _CONFIG_REG 0x4000; BusWrite _CONFIG_REG 0x40C0]
      None (Some 2) in
  __init__ Sim.dev_read Sim.dev_write 0 (Sim.idle 0x0000 []) = Ret tt self /\
  get_bits_word _pga 0x40C0 = 0 /\
  call Sim.dev_read Sim.dev_write 0 GetRange self = Ret (PyInt 2) self.
Proof.
  destruct (init_never_writes_pga Sim.device Sim.dev_read Sim.dev_write 0%nat
              (Sim.idle 0x0000 [])
              0x0000 (Sim.idle 0x0000 [])
              0x0000 (Sim.idle 0x0000 [])
              0x4000 (Sim.idle 0x4000 [])
              eq_refl eq_refl eq_refl) as (Hinit & _ & _ & Hpga & Hrange).
  split; [exact Hinit | split; [exact Hpga | exact Hrange]].
Defined.

Lemma set_mode_protocol_witness :
  let self := Sim.instance (Sim.idle 0x0483 [0x7FF0]) 2 in
  set_mode Sim.dev_read Sim.dev_write 0 CONTINUOUS self
  = Ret tt (logged self (Sim.idle 0x0483 [0x7FF0])
              [BusRead _CONFIG_REG 0x0483; BusWrite _CONFIG_REG 0x0483]) /\
  set_mode Sim.dev_read Sim.dev_write 3 ONE_SHOT self
  = Ret tt
      (mkTLA2024 (Sim.idle 0x8583 [])
         [BusRead _CONFIG_REG 0x0483; BusWrite _CONFIG_REG 0x0583;
          BusRead _CONFIG_REG 0x0583; BusWrite _CONFIG_REG 0x8583;
          BusRead _CONFIG_REG 0x8583; BusRead _CONFIG_REG 0x8583;
          BusRead _CONFIG_REG 0x0583;
          BusRead _DATA_REG 0x7FF0]
         (Some 2.048%float) (Some 2)).
Proof.
  assert (os_polls Sim.dev_read
            (Sim.dev_write _CONFIG_REG 0x8583 (Sim.idle 0x0583 [0x7FF0]))
            [BusRead _CONFIG_REG 0x8583; BusRead _CONFIG_REG 0x8583;
             BusRead _CONFIG_REG 0x0583]
            (Sim.idle 0x8583 [0x7FF0])) as Hpolls.
  { eapply (os_polls_busy _ _ _ 0x8583); [reflexivity | reflexivity |].
    eapply (os_polls_busy _ _ _ 0x8583); [reflexivity | reflexivity |].
    eapply (os_polls_clear _ _ _ 0x0583); reflexivity. }
  assert (0 <= 2) as Hpos by lia.
  destruct (set_mode_protocol Sim.device Sim.dev_read Sim.dev_write
              (Sim.instance (Sim.idle 0x0483 [0x7FF0]) 2)
              0x0483 (Sim.idle 0x0483 [0x7FF0])
              0x0583 (Sim.idle 0x0583 [0x7FF0])
              _ _ 0x7FF0 (Sim.idle 0x8583 []) 2
              eq_refl eq_refl Hpolls eq_refl eq_refl Hpos) as [Hc Ho].
  split; [exact (Hc 0%nat) | apply (Ho 3%nat); simpl; lia].
Defined.

Lemma voltage_cached_or_live_witness :
  let cached := mkTLA2024 (Sim.idle 0x0583 [0x7FF0]) [] (Some 1.5%float) (Some 2) in
  let live := mkTLA2024 (Sim.idle 0x0483 [0x7FF0]) [] (Some 1.5%float) (Some 2) in
  voltage Sim.dev_read cached
  = Ret (Some 1.5%float)
        (mkTLA2024 (Sim.idle 0x0583 [0x7FF0]) [BusRead _CONFIG_REG 0x0583]
           (Some 1.5%float) (Some 2)) /\
  voltage Sim.dev_read live
  = Ret (Some 2.048%float)
        (mkTLA2024 (Sim.idle 0x0483 [])
           [BusRead _CONFIG_REG 0x0483; BusRead _DATA_REG 0x7FF0]
           (Some 1.5%float) (Some 2)).
Proof.
  assert (0 <= 2) as Hpos by lia.
  split.
  - exact (proj1 (proj1 (voltage_cached_or_live Sim.device Sim.dev_read Sim.dev_write
                           (mkTLA2024 (Sim.idle 0x0583 [0x7FF0]) [] (Some 1.5%float) (Some 2))
                           0x0583 (Sim.idle 0x0583 [0x7FF0]) eq_refl) eq_refl)).
  - exact (proj2 (voltage_cached_or_live Sim.device Sim.dev_read Sim.dev_write
                    (mkTLA2024 (Sim.idle 0x0483 [0x7FF0]) [] (Some 1.5%float) (Some 2))
                    0x0483 (Sim.idle 0x0483 [0x7FF0]) eq_refl)
             eq_refl 0x7FF0 (Sim.idle 0x0483 []) 2 eq_refl eq_refl Hpos).
Defined.

Lemma voltage_none_before_one_shot_witness :
  exists self0 self,
    __init__ Sim.dev_read Sim.dev_write 0 (Sim.idle 0x8583 [0x7FF0]) = Ret tt self0 /\
    run_calls Sim.dev_read Sim.dev_write 0
      [SetInputChannel 1; GetVoltage; SetRange 1] self0 = Some self /\
    voltage Sim.dev_read
      (mkTLA2024 (Sim.idle 0x8583 []) (bus_log self) (_last_one_shot self) (range self))
    = Ret None
          (mkTLA2024 (Sim.idle 0x8583 [])
             (bus_log self ++ [BusRead _CONFIG_REG 0x0583]) None (range self)).
Proof.
  destruct (voltage_none_before_one_shot Sim.device Sim.dev_read Sim.dev_write
              0%nat (Sim.idle 0x8583 [0x7FF0])
              [SetInputChannel 1; GetVoltage; SetRange 1] eq_refl)
    as (_ & self0 & self & Hinit & _ & Hrun & _ & Hv).
  exists self0, self.
  split; [exact Hinit|]. split; [exact Hrun|].
  exact (Hv (Sim.idle 0x8583 []) 0x0583 (Sim.idle 0x8583 []) eq_refl eq_refl).
Defined.

(** * Further properties of the code *)

(** ** CV.add_values and CV.is_valid *)








(** ** The 12-bit sample, round trip *)

Lemma sample_values_complete v : -2048 <= v <= 2047 -> In v sample_values.
Proof.
  intros Hv. unfold sample_values. apply in_map_iff.
  exists (Z.to_nat (v + 2048)). split; [lia|]. apply in_seq. lia.
Qed.

Lemma decode_lsb_of_encoded s k :
  -2048 <= s <= 2047 -> 0 <= k < 16 ->
  0 <= (s mod 4096) * 16 + k < 65536 /\
  decode_lsb (unpack_h ((s mod 4096) * 16 + k)) = s.
Proof.
  intros Hs Hk.
  assert (0 <= s mod 4096 < 4096) as Hm by (apply Z.mod_pos_bound; lia).
  split; [lia|].
  rewrite decode_lsb_shift by (apply unpack_h_range; lia).
  rewrite Z.shiftr_div_pow2 by lia. change (2 ^ 4) with 16.
  unfold unpack_h.
  destruct (Z_lt_ge_dec s 0) as [Hneg | Hpos].
  - assert (s mod 4096 = s + 4096) as ->.
    { symmetry. apply (Z.mod_unique s 4096 (-1)); lia. }
    replace (32768 <=? (s + 4096) * 16 + k) with true by (symmetry; apply Z.leb_le; lia).
    replace ((s + 4096) * 16 + k - 65536) with (k + s * 16) by lia.
    rewrite Z.div_add by lia. rewrite Z.div_small by lia. lia.
  - rewrite Z.mod_small by lia.
    replace (32768 <=? s * 16 + k) with false by (symmetry; apply Z.leb_gt; lia).
    replace (s * 16 + k) with (k + s * 16) by lia.
    rewrite Z.div_add by lia. rewrite Z.div_small by lia. lia.
Qed.

(** ** The range of the reading *)

Lemma reading_in_range_table :
  forallb (fun r => forallb (reading_in_range r) sample_values) [0; 1; 2; 3; 4; 5] = true.
Proof. vm_compute. reflexivity. Qed.

Lemma reading_odd_table :
  forallb (fun r => forallb (reading_odd r) sample_values) [0; 1; 2; 3; 4; 5] = true.
Proof. vm_compute. reflexivity. Qed.

Lemma reading_steps_up_table :
  forallb (fun r => forallb (reading_steps_up r) lower_sample_values)
          [0; 1; 2; 3; 4; 5] = true.
Proof. vm_compute. reflexivity. Qed.

Lemma range_code_listed r : 0 <= r <= 5 -> In r [0; 1; 2; 3; 4; 5].
Proof. intros H. simpl. lia. Qed.

(** X3. For each of the six range codes and every 12-bit sample, the
    voltage computed by [_read_volts] is at most the full scale in
    volts, at least the reading of the sample -2048, negative for a
    negative sample and non-negative otherwise. *)
Theorem reading_within_full_scale r s :
  0 <= r <= 5 ->
  -2048 <= s <= 2047 ->
  let fs := full_scale r in
  let v := scale_volts s fs in
  (scale_volts (-2048) fs <=? v)%float = true /\
  (v <=? float_of_int fs / 1000.0)%float = true /\
  (s < 0 -> (v <? 0)%float = true) /\
  (0 <= s -> (0 <=? v)%float = true).
Proof.
  intros Hr Hs fs v.
  pose proof reading_in_range_table as T.
  rewrite forallb_forall in T. specialize (T r (range_code_listed r Hr)).
  rewrite forallb_forall in T. specialize (T s (sample_values_complete s Hs)).
  unfold reading_in_range in T. fold fs in T. fold v in T.
  apply andb_true_iff in T as [T Hsign]. apply andb_true_iff in T as [Hlo Hhi].
  split; [exact Hlo|]. split; [exact Hhi|].
  split; intros Hcase.
  - replace (s <? 0) with true in Hsign by (symmetry; apply Z.ltb_lt; lia). exact Hsign.
  - replace (s <? 0) with false in Hsign by (symmetry; apply Z.ltb_ge; lia). exact Hsign.
Qed.

Lemma reading_within_full_scale_witness :
  (scale_volts (-2048) 4096 <=? scale_volts (-1) 4096)%float = true /\
  (scale_volts (-1) 4096 <=? 4.096)%float = true /\
  (scale_volts (-1) 4096 <? 0)%float = true.
Proof.
  assert (0 <= 1 <= 5) as Hr by lia.
  assert (-2048 <= -1 <= 2047) as Hs by lia.
  destruct (reading_within_full_scale 1 (-1) Hr Hs) as (Hlo & Hhi & Hneg & _).
  split; [exact Hlo|]. split; [exact Hhi|]. apply Hneg. lia.
Defined.

(** X4. For each of the six range codes the conversion is odd: the
    samples [s] and [-s] give opposite readings, and the sample 0 gives
    exactly 0.0. *)
Theorem reading_is_odd r s :
  0 <= r <= 5 ->
  -2047 <= s <= 2047 ->
  let fs := full_scale r in
  (scale_volts (- s) fs =? - scale_volts s fs)%float = true /\
  scale_volts 0 fs = 0%float.
Proof.
  intros Hr Hs fs. split.
  - pose proof reading_odd_table as T.
    rewrite forallb_forall in T. specialize (T r (range_code_listed r Hr)).
    rewrite forallb_forall in T.
    apply (T s). apply sample_values_complete. lia.
  - subst fs. assert (r = 0 \/ r = 1 \/ r = 2 \/ r = 3 \/ r = 4 \/ r = 5) as Hc by lia.
    destruct Hc as [-> | [-> | [-> | [-> | [-> | ->]]]]]; vm_compute; reflexivity.
Qed.

Lemma reading_is_odd_witness :
  (scale_volts (-100) 2048 =? - scale_volts 100 2048)%float = true /\
  scale_volts 0 2048 = 0%float.
Proof.
  assert (0 <= 2 <= 5) as Hr by lia.
  assert (-2047 <= 100 <= 2047) as Hs by lia.
  exact (reading_is_odd 2 100 Hr Hs).
Defined.

Lemma forallb_true_at {A} (f : A -> bool) l x :
  forallb f l = true -> In x l -> f x = true.
Proof. intros H. rewrite forallb_forall in H. apply H. Qed.

Lemma lower_sample_values_complete v :
  -2048 <= v < 2047 -> In v lower_sample_values.
Proof.
  intros Hv. unfold lower_sample_values. apply in_map_iff.
  exists (Z.to_nat (v + 2048)). split; [lia|]. apply in_seq. lia.
Qed.

(** X17. For each of the six range codes, the reading strictly
    increases from every sample to the next one, so neighbouring
    samples never give the same voltage. *)
Theorem reading_steps_up_everywhere r s :
  0 <= r <= 5 ->
  -2048 <= s < 2047 ->
  (scale_volts s (full_scale r) <? scale_volts (s + 1) (full_scale r))%float = true.
Proof.
  intros Hr Hs.
  apply (forallb_true_at (reading_steps_up r) lower_sample_values s).
  - apply (forallb_true_at
             (fun r => forallb (reading_steps_up r) lower_sample_values)
             [0; 1; 2; 3; 4; 5] r reading_steps_up_table), range_code_listed, Hr.
  - apply lower_sample_values_complete, Hs.
Qed.

Lemma reading_steps_up_everywhere_witness :
  (scale_volts (-1) 1024 <? scale_volts 0 1024)%float = true.
Proof.
  assert (0 <= 3 <= 5) as Hr by lia.
  assert (-2048 <= -1 < 2047) as Hs by lia.
  exact (reading_steps_up_everywhere 3 (-1) Hr Hs).
Defined.

(** ** Replacing one field of the CONFIG word *)

Lemma set_bits_word_replaces f value w :
  Z.land (Z.lnot (bit_mask f)) 0xFFFF = Z.lxor 0xFFFF (bit_mask f) ->
  Z.land (Z.shiftl value (lowest_bit f)) 0xFFFF = Z.shiftl value (lowest_bit f) ->
  set_bits_word f value w
  = Z.lor (outside_field f w) (Z.shiftl value (lowest_bit f)).
Proof.
  intros Hmask Hval. unfold set_bits_word, outside_field, word16.
  change 65536 with (2 ^ 16). rewrite <- Z.land_ones by lia.
  change (Z.ones 16) with 0xFFFF.
  rewrite Z.land_lor_distr_l, Hval, <- Z.land_assoc, Hmask. reflexivity.
Qed.

Lemma three_bit_value v :
  0 <= v <= 7 ->
  v = 0 \/ v = 1 \/ v = 2 \/ v = 3 \/ v = 4 \/ v = 5 \/ v = 6 \/ v = 7.
Proof. lia. Qed.

Lemma mux_word_replaces m w :
  0 <= m <= 7 ->
  set_bits_word _mux m w = Z.lor (outside_field _mux w) (Z.shiftl m 12).
Proof.
  intros Hm. apply (set_bits_word_replaces _mux); [reflexivity|].
  destruct (three_bit_value m Hm)
    as [-> | [-> | [-> | [-> | [-> | [-> | [-> | ->]]]]]]]; reflexivity.
Qed.

Lemma data_rate_word_replaces rate w :
  0 <= rate <= 7 ->
  set_bits_word _data_rate rate w = Z.lor (outside_field _data_rate w) (Z.shiftl rate 5).
Proof.
  intros Hm. apply (set_bits_word_replaces _data_rate); [reflexivity|].
  destruct (three_bit_value rate Hm)
    as [-> | [-> | [-> | [-> | [-> | [-> | [-> | ->]]]]]]]; reflexivity.
Qed.

Lemma mux_outside_kept m w :
  0 <= m <= 7 ->
  outside_field _mux (set_bits_word _mux m w) = outside_field _mux w.
Proof.
  intros Hm. unfold outside_field.
  apply set_bits_word_outside; [vm_compute; split; [discriminate | reflexivity] | reflexivity |].
  destruct (three_bit_value m Hm)
    as [-> | [-> | [-> | [-> | [-> | [-> | [-> | ->]]]]]]]; reflexivity.
Qed.

Lemma data_rate_outside_kept rate w :
  0 <= rate <= 7 ->
  outside_field _data_rate (set_bits_word _data_rate rate w)
  = outside_field _data_rate w.
Proof.
  intros Hm. unfold outside_field.
  apply set_bits_word_outside; [vm_compute; split; [discriminate | reflexivity] | reflexivity |].
  destruct (three_bit_value rate Hm)
    as [-> | [-> | [-> | [-> | [-> | [-> | [-> | ->]]]]]]]; reflexivity.
Qed.

Lemma data_rate_read_back rate w :
  0 <= rate <= 7 ->
  get_bits_word _data_rate (set_bits_word _data_rate rate w) = rate.
Proof.
  intros Hv. unfold get_bits_word.
  rewrite set_bits_word_inside.
  - destruct (three_bit_value rate Hv)
      as [-> | [-> | [-> | [-> | [-> | [-> | [-> | ->]]]]]]]; reflexivity.
  - vm_compute. split; [discriminate | reflexivity].
  - destruct (three_bit_value rate Hv)
      as [-> | [-> | [-> | [-> | [-> | [-> | [-> | ->]]]]]]]; reflexivity.
Qed.

Lemma mode_bit_written value w n :
  Z.testbit (set_bit_word _mode value w) n
  = if n =? 8 then value else Z.testbit w n.
Proof.
  unfold set_bit_word. change (bit _mode) with 8.
  destruct (Z_lt_ge_dec n 0) as [Hneg | Hpos].
  - rewrite !Z.testbit_neg_r by lia.
    replace (n =? 8) with false by (symmetry; apply Z.eqb_neq; lia). reflexivity.
  - rewrite Z.shiftl_1_l.
    destruct value.
    + rewrite Z.lor_spec, Z.pow2_bits_eqb by lia.
      rewrite (Z.eqb_sym 8 n). destruct (n =? 8); [apply orb_true_r | apply orb_false_r].
    + rewrite Z.land_spec, Z.lnot_spec, Z.pow2_bits_eqb by lia.
      rewrite (Z.eqb_sym 8 n). destruct (n =? 8); [apply andb_false_r | apply andb_true_r].
Qed.

(** ** More on the driver, on an arbitrary device *)

Section DriverMore.

Variable Dev : Type.
Variable dev_read : Z -> Dev -> Z * Dev.
Variable dev_write : Z -> Z -> Dev -> Dev.

Implicit Type self : TLA2024 Dev.

(** X5. Decoding inverts the register layout: when DATA holds the
    12-bit two's complement of a sample [s] in its top twelve bits,
    whatever the low four bits are, [_read_lsb] returns [s]. *)
Theorem read_lsb_round_trip self bytes d s k :
  dev_read _DATA_REG (i2c_device self) = (bytes, d) ->
  -2048 <= s <= 2047 ->
  0 <= k < 16 ->
  word16 bytes = (s mod 4096) * 16 + k ->
  _read_lsb dev_read self
  = Ret s (logged self d [BusRead _DATA_REG ((s mod 4096) * 16 + k)]).
Proof.
  intros H Hs Hk Hw.
  rewrite (read_lsb_run _ dev_read self bytes d H), Hw.
  destruct (decode_lsb_of_encoded s k Hs Hk) as [_ ->]. reflexivity.
Qed.

(** X6. [mux = m] is accepted exactly for the codes 0..7. A rejected
    value raises with the instance and the bus untouched; an accepted
    one is written by one read-modify-write whose word is the word read
    with the MUX field replaced by [m] and every other bit kept, and on
    a device that answers with the MUX bits it was sent, reading [mux]
    returns [m]. *)
Theorem set_mux_round_trip m self bytes d bytes' d' :
  dev_read _CONFIG_REG (i2c_device self) = (bytes, d) ->
  let w := word16 bytes in
  let w' := Z.lor (outside_field _mux w) (Z.shiftl m 12) in
  let self1 := logged self (dev_write _CONFIG_REG w' d)
                 [BusRead _CONFIG_REG w; BusWrite _CONFIG_REG w'] in
  (~ 0 <= m <= 7 ->
   set_mux dev_read dev_write m self
   = Raise (AttributeError "``mux`` must be a valid ``Mux``") self) /\
  (0 <= m <= 7 ->
   set_mux dev_read dev_write m self = Ret tt self1 /\
   outside_field _mux w' = outside_field _mux w /\
   get_bits_word _mux w' = m /\
   (dev_read _CONFIG_REG (i2c_device self1) = (bytes', d') ->
    get_bits_word _mux (word16 bytes') = get_bits_word _mux w' ->
    mux dev_read self1
    = Ret m (logged self1 d' [BusRead _CONFIG_REG (word16 bytes')]))).
Proof.
  intros H w w' self1. split.
  - intros Hm. apply set_mux_rejects.
    destruct (CV.is_valid Mux m) eqn:E; [|reflexivity].
    apply Mux_is_valid in E. contradiction.
  - intros Hm.
    assert (CV.is_valid Mux m = true) as Hv by (apply Mux_is_valid; exact Hm).
    assert (set_bits_word _mux m w = w') as Hw by (apply mux_word_replaces, Hm).
    assert (get_bits_word _mux w' = m) as Hback
      by (rewrite <- Hw; apply mux_read_back; lia).
    split.
    + rewrite (set_mux_run _ dev_read dev_write m self bytes d Hv H).
      fold w. rewrite Hw. reflexivity.
    + split; [rewrite <- Hw; apply mux_outside_kept, Hm|].
      split; [exact Hback|].
      intros H' Hdev. unfold mux.
      rewrite (RWBits_get_run _ dev_read _mux self1 bytes' d' H').
      now rewrite Hdev, Hback.
Qed.

(** X7. [data_rate = rate] is accepted exactly for the codes 0..6. A
    rejected value raises with the instance and the bus untouched; an
    accepted one is written by one read-modify-write that replaces the
    data-rate field and keeps every other bit, and on a device that
    answers with the bits it was sent, reading [data_rate] returns
    [rate]. *)
Theorem set_data_rate_round_trip rate self bytes d bytes' d' :
  dev_read _CONFIG_REG (i2c_device self) = (bytes, d) ->
  let w := word16 bytes in
  let w' := Z.lor (outside_field _data_rate w) (Z.shiftl rate 5) in
  let self1 := logged self (dev_write _CONFIG_REG w' d)
                 [BusRead _CONFIG_REG w; BusWrite _CONFIG_REG w'] in
  (~ 0 <= rate <= 6 ->
   set_data_rate dev_read dev_write rate self
   = Raise (AttributeError "``data_rate`` must be a valid ``DataRate``") self) /\
  (0 <= rate <= 6 ->
   set_data_rate dev_read dev_write rate self = Ret tt self1 /\
   outside_field _data_rate w' = outside_field _data_rate w /\
   get_bits_word _data_rate w' = rate /\
   (dev_read _CONFIG_REG (i2c_device self1) = (bytes', d') ->
    get_bits_word _data_rate (word16 bytes') = get_bits_word _data_rate w' ->
    data_rate dev_read self1
    = Ret rate (logged self1 d' [BusRead _CONFIG_REG (word16 bytes')]))).
Proof.
  intros H w w' self1. split.
  - intros Hm. apply set_data_rate_rejects.
    destruct (CV.is_valid DataRate rate) eqn:E; [|reflexivity].
    apply DataRate_is_valid in E. contradiction.
  - intros Hm.
    assert (CV.is_valid DataRate rate = true) as Hv
      by (apply DataRate_is_valid; exact Hm).
    assert (set_bits_word _data_rate rate w = w') as Hw
      by (apply data_rate_word_replaces; lia).
    assert (get_bits_word _data_rate w' = rate) as Hback
      by (rewrite <- Hw; apply data_rate_read_back; lia).
    split.
    + rewrite (set_data_rate_run _ dev_read dev_write rate self bytes d Hv H).
      fold w. rewrite Hw. reflexivity.
    + split; [rewrite <- Hw; apply data_rate_outside_kept; lia|].
      split; [exact Hback|].
      intros H' Hdev. unfold data_rate.
      rewrite (RWBits_get_run _ dev_read _data_rate self1 bytes' d' H').
      now rewrite Hdev, Hback.
Qed.

(** X8. [mode = m] is accepted exactly for 0 and 1; any other value
    raises with the instance and the bus untouched, whatever the fuel.
    [mode = CONTINUOUS] writes back the word read with bit 8 cleared
    and every other bit as it was, and on a device that answers with
    the bit it was sent, reading [mode] then returns [False]. *)
Theorem set_mode_validates_and_clears_bit fuel m self bytes d bytes' d' :
  dev_read _CONFIG_REG (i2c_device self) = (bytes, d) ->
  let w := word16 bytes in
  let w' := set_bit_word _mode false w in
  let self1 := logged self (dev_write _CONFIG_REG w' d)
                 [BusRead _CONFIG_REG w; BusWrite _CONFIG_REG w'] in
  (m <> 0 -> m <> 1 ->
   set_mode dev_read dev_write fuel m self
   = Raise (AttributeError "``mode`` must be a valid ``Mode``") self) /\
  set_mode dev_read dev_write fuel CONTINUOUS self = Ret tt self1 /\
  (forall n, Z.testbit w' n = if n =? 8 then false else Z.testbit w n) /\
  (dev_read _CONFIG_REG (i2c_device self1) = (bytes', d') ->
   Z.testbit (word16 bytes') 8 = Z.testbit w' 8 ->
   mode dev_read self1
   = Ret false (logged self1 d' [BusRead _CONFIG_REG (word16 bytes')])).
Proof.
  intros H w w' self1. split; [|split; [|split]].
  - intros H0 H1. apply set_mode_rejects.
    destruct (CV.is_valid Mode m) eqn:E; [|reflexivity].
    apply Mode_is_valid in E. lia.
  - apply set_mode_continuous_run, H.
  - intros n. apply mode_bit_written.
  - intros H' Hdev. unfold mode.
    rewrite (RWBit_get_run _ dev_read _mode self1 bytes' d' H').
    change (bit _mode) with 8. rewrite Hdev.
    unfold w'. rewrite mode_bit_written. reflexivity.
Qed.

(** X9. For a channel in 0..3, [input_channel = channel] is the same
    computation as [mux = 4 + channel], and reading [input_channel] is
    the same as reading [mux], on every instance and device. *)
Theorem input_channel_is_mux channel self :
  0 <= channel < 4 ->
  set_input_channel dev_read dev_write channel self
  = set_mux dev_read dev_write (4 + channel) self /\
  input_channel dev_read self = mux dev_read self.
Proof.
  intros Hc. split; [|reflexivity].
  unfold set_input_channel, set_mux.
  replace ((0 <=? channel) && (channel <? 4)) with true
    by (symmetry; apply andb_true_iff; lia).
  replace (CV.is_valid Mux (4 + channel)) with true
    by (symmetry; apply Mux_is_valid; lia).
  reflexivity.
Qed.

(** X10. Each pin name [A0]..[A3] of tla2024.py is accepted by the
    [input_channel] setter, and the MUX code [4 + pin] it writes is the
    member of [Mux] labelled as that input against ground. *)
Theorem pin_selects_input_to_ground pin self bytes d :
  In pin [A0; A1; A2; A3] ->
  dev_read _CONFIG_REG (i2c_device self) = (bytes, d) ->
  let w := set_bits_word _mux (4 + pin) (word16 bytes) in
  set_input_channel dev_read dev_write pin self
  = Ret tt (logged self (dev_write _CONFIG_REG w d)
              [BusRead _CONFIG_REG (word16 bytes); BusWrite _CONFIG_REG w]) /\
  get_bits_word _mux w = 4 + pin /\
  CV.string Mux !! (4 + pin)
  = Some (PyStr ("AIN " ++ String (Ascii.ascii_of_nat (48 + Z.to_nat pin)) " to GND")).
Proof.
  intros Hpin H w.
  assert (0 <= pin < 4) as Hc.
  { unfold A0, A1, A2, A3 in Hpin. simpl in Hpin. lia. }
  split.
  - apply set_input_channel_run; assumption.
  - split; [apply mux_read_back; lia|].
    assert (pin = 0 \/ pin = 1 \/ pin = 2 \/ pin = 3) as Hp by lia.
    destruct Hp as [-> | [-> | [-> | ->]]]; vm_compute; reflexivity.
Qed.

(** *** Errors from an unchecked range *)

(** X11. The range is stored unchecked, so a negative one can be
    stored; a [voltage] read in continuous mode then reads CONFIG and
    DATA and raises [ValueError] from the shift, returning no voltage
    and leaving the cached one-shot result as it was. *)
Theorem negative_range_raises fuel self0 bytes d raw d' r :
  r < 0 ->
  let self := mkTLA2024 (i2c_device self0) (bus_log self0)
                (_last_one_shot self0) (Some r) in
  dev_read _CONFIG_REG (i2c_device self0) = (bytes, d) ->
  Z.testbit (word16 bytes) 8 = false ->
  dev_read _DATA_REG d = (raw, d') ->
  call dev_read dev_write fuel (SetRange r) self0 = Ret PyNone self /\
  voltage dev_read self
  = Raise (ValueError "negative shift count")
          (logged self d' [BusRead _CONFIG_REG (word16 bytes);
                           BusRead _DATA_REG (word16 raw)]).
Proof.
  intros Hr self H Hbit Hraw. split; [reflexivity|].
  unfold voltage, mode.
  erewrite bind_ret by (apply (RWBit_get_run _ dev_read _mode self); exact H).
  change (bit _mode) with 8. rewrite Hbit. cbv beta iota.
  change (Z.b2z false =? ONE_SHOT) with false. cbv beta iota.
  apply bind_raise. unfold _read_volts.
  erewrite bind_ret by (apply read_lsb_run; exact Hraw).
  unfold getattr_range, py_rshift, mbind, M_bind, bind, raise. simpl.
  replace (r <? 0) with true by (symmetry; apply Z.ltb_lt; exact Hr).
  now rewrite logged_logged.
Qed.

(** *** The busy-wait without an end *)

Lemma wait_os_busy_hangs :
  (forall d, Z.testbit (word16 (fst (dev_read _CONFIG_REG d))) 15 = true) ->
  forall fuel self, wait_os dev_read fuel self = Hang.
Proof.
  intros Hbusy fuel. induction fuel as [|fuel IH]; intros self; cbn [wait_os].
  - reflexivity.
  - destruct (dev_read _CONFIG_REG (i2c_device self)) as [bytes d] eqn:Hread.
    erewrite bind_ret by (apply (RWBit_get_run _ dev_read _os); exact Hread).
    change (bit _os) with 15.
    pose proof (Hbusy (i2c_device self)) as Hb. rewrite Hread in Hb. cbn [fst] in Hb.
    rewrite Hb. cbv beta iota. apply IH.
Qed.

Lemma set_mode_one_shot_hangs :
  (forall d, Z.testbit (word16 (fst (dev_read _CONFIG_REG d))) 15 = true) ->
  forall fuel self, set_mode dev_read dev_write fuel ONE_SHOT self = Hang.
Proof.
  intros Hbusy fuel self. unfold set_mode.
  replace (CV.is_valid Mode ONE_SHOT) with true by (vm_compute; reflexivity).
  simpl.
  destruct (dev_read _CONFIG_REG (i2c_device self)) as [b0 d0] eqn:H0.
  erewrite bind_ret by (apply (RWBit_set_run _ dev_read dev_write _mode); exact H0).
  match goal with
  | |- (_ ≫= _) ?s = _ =>
      destruct (dev_read _CONFIG_REG (i2c_device s)) as [b1 d1] eqn:H1
  end.
  erewrite bind_ret by (apply (RWBit_set_run _ dev_read dev_write _os); exact H1).
  apply bind_hang, wait_os_busy_hangs, Hbusy.
Qed.

(** X12. The poll loop has no bound: on a device whose status bit
    reads set at every poll, no amount of fuel lets [mode = ONE_SHOT]
    or [read] of a valid channel come back. *)
Theorem one_shot_never_returns_while_busy :
  (forall d, Z.testbit (word16 (fst (dev_read _CONFIG_REG d))) 15 = true) ->
  forall fuel self,
    set_mode dev_read dev_write fuel ONE_SHOT self = Hang /\
    forall channel, 0 <= channel < 4 ->
      read dev_read dev_write fuel channel self = Hang.
Proof.
  intros Hbusy fuel self. split; [apply set_mode_one_shot_hangs, Hbusy|].
  intros channel Hc. unfold read.
  destruct (dev_read _CONFIG_REG (i2c_device self)) as [b0 d0] eqn:H0.
  erewrite bind_ret by (apply set_input_channel_run; [exact Hc | exact H0]).
  apply bind_hang, set_mode_one_shot_hangs, Hbusy.
Qed.

(** *** read *)

Lemma set_mode_one_shot_run fuel self bytes0 d0 bytes1 d1 evs d3 bytes4 d4 r :
  dev_read _CONFIG_REG (i2c_device self) = (bytes0, d0) ->
  let w0 := set_bit_word _mode true (word16 bytes0) in
  dev_read _CONFIG_REG (dev_write _CONFIG_REG w0 d0) = (bytes1, d1) ->
  let w1 := set_bit_word _os true (word16 bytes1) in
  os_polls dev_read (dev_write _CONFIG_REG w1 d1) evs d3 ->
  dev_read _DATA_REG d3 = (bytes4, d4) ->
  range self = Some r ->
  0 <= r ->
  (length evs <= fuel)%nat ->
  set_mode dev_read dev_write fuel ONE_SHOT self
  = Ret tt
      (mkTLA2024 d4
         (bus_log self
          ++ [BusRead _CONFIG_REG (word16 bytes0); BusWrite _CONFIG_REG w0;
              BusRead _CONFIG_REG (word16 bytes1); BusWrite _CONFIG_REG w1]
          ++ evs
          ++ [BusRead _DATA_REG (word16 bytes4)])
         (Some (scale_volts (decode_lsb (unpack_h (word16 bytes4)))
                            (full_scale r)))
         (Some r)).
Proof.
  intros H0 w0 H1 w1 Hpolls H4 Hr Hpos Hfuel. unfold set_mode.
  replace (CV.is_valid Mode ONE_SHOT) with true by (vm_compute; reflexivity).
  simpl.
  erewrite bind_ret by (apply (RWBit_set_run _ dev_read dev_write _mode); exact H0).
  erewrite bind_ret by (apply (RWBit_set_run _ dev_read dev_write _os); exact H1).
  erewrite bind_ret by (apply wait_os_run; [exact Hpolls | exact Hfuel]).
  erewrite bind_ret by (apply read_volts_run; [exact H4 | exact Hr | exact Hpos]).
  unfold set_last_one_shot, logged. simpl. rewrite Hr.
  f_equal. f_equal. rewrite <- !app_assoc. reflexivity.
Qed.

(** X13. [read] with a channel outside 0..3 raises [AttributeError]
    before anything else happens: no register transaction, no
    acquisition, the cached result unchanged, for every fuel. *)
Theorem read_rejects_channel fuel channel self :
  ~ 0 <= channel < 4 ->
  read dev_read dev_write fuel channel self
  = Raise (AttributeError "``input_channel`` must be set to a number from 0 to 3")
          self.
Proof.
  intros Hc. unfold read. apply bind_raise, set_input_channel_rejects, Hc.
Qed.

(** X14. A [read] of a valid channel selects the channel, runs one
    acquisition and, when the device then reports the mode bit set,
    returns the voltage just stored in [_last_one_shot]: the conversion
    of the single DATA word read after the polls. The transactions are
    the MUX write, the mode write, the status write, the polls, the
    DATA read and the final mode read, in that order. *)
Theorem read_returns_fresh_acquisition
    fuel channel self bytes0 d0 bytes1 d1 bytes2 d2 evs d3 bytes4 d4 bytes5 d5 r :
  0 <= channel < 4 ->
  dev_read _CONFIG_REG (i2c_device self) = (bytes0, d0) ->
  let wm := set_bits_word _mux (4 + channel) (word16 bytes0) in
  dev_read _CONFIG_REG (dev_write _CONFIG_REG wm d0) = (bytes1, d1) ->
  let w1 := set_bit_word _mode true (word16 bytes1) in
  dev_read _CONFIG_REG (dev_write _CONFIG_REG w1 d1) = (bytes2, d2) ->
  let w2 := set_bit_word _os true (word16 bytes2) in
  os_polls dev_read (dev_write _CONFIG_REG w2 d2) evs d3 ->
  dev_read _DATA_REG d3 = (bytes4, d4) ->
  dev_read _CONFIG_REG d4 = (bytes5, d5) ->
  Z.testbit (word16 bytes5) 8 = true ->
  range self = Some r ->
  0 <= r ->
  (length evs <= fuel)%nat ->
  let v := scale_volts (decode_lsb (unpack_h (word16 bytes4))) (full_scale r) in
  read dev_read dev_write fuel channel self
  = Ret (Some v)
      (mkTLA2024 d5
         (bus_log self
          ++ [BusRead _CONFIG_REG (word16 bytes0); BusWrite _CONFIG_REG wm;
              BusRead _CONFIG_REG (word16 bytes1); BusWrite _CONFIG_REG w1;
              BusRead _CONFIG_REG (word16 bytes2); BusWrite _CONFIG_REG w2]
          ++ evs
          ++ [BusRead _DATA_REG (word16 bytes4);
              BusRead _CONFIG_REG (word16 bytes5)])
         (Some v) (Some r)).
Proof.
  intros Hc H0 wm H1 w1 H2 w2 Hpolls H4 H5 Hbit Hr Hpos Hfuel v.
  unfold read.
  erewrite bind_ret by (apply set_input_channel_run; [exact Hc | exact H0]).
  erewrite bind_ret
    by (eapply set_mode_one_shot_run;
        [exact H1 | exact H2 | exact Hpolls | exact H4 | exact Hr | exact Hpos
         | exact Hfuel]).
  erewrite voltage_one_shot_run; [| simpl; exact H5 | exact Hbit].
  unfold logged. cbn [bus_log _last_one_shot range i2c_device]. f_equal. f_equal.
  rewrite <- ?app_assoc. cbn [app]. rewrite <- ?app_assoc. reflexivity.
Qed.

(** *** Bus discipline of every call *)

Lemma rmw_log_app evs evs' : rmw_log evs -> rmw_log evs' -> rmw_log (evs ++ evs').
Proof.
  intros H H'. induction H; simpl.
  - exact H'.
  - now apply rmw_read.
  - now apply rmw_write.
Qed.

Lemma rmw_log_writes_config evs :
  rmw_log evs -> forall reg word, In (BusWrite reg word) evs -> reg = _CONFIG_REG.
Proof.
  intros H. induction H; intros r w Hin; simpl in Hin.
  - destruct Hin.
  - destruct Hin as [E | Hin]; [discriminate | eauto].
  - destruct Hin as [E | [E | Hin]]; [discriminate | now inversion E | eauto].
Qed.

Lemma disciplined_ret {A} (a : A) : disciplined (mret a : M (TLA2024 Dev) A).
Proof.
  intros self self' Hs. injection Hs as <-. exists [].
  split; [now rewrite app_nil_r | constructor].
Qed.

Lemma disciplined_raise {A} e : disciplined (raise e : M (TLA2024 Dev) A).
Proof.
  intros self self' Hs. injection Hs as <-. exists [].
  split; [now rewrite app_nil_r | constructor].
Qed.

Lemma disciplined_bind {A B} (m : M (TLA2024 Dev) A) (k : A -> M (TLA2024 Dev) B) :
  disciplined m -> (forall a, disciplined (k a)) -> disciplined (m ≫= k).
Proof.
  intros Hm Hk self self' Hs. unfold mbind, M_bind, bind in Hs.
  destruct (m self) as [a s | e s |] eqn:E.
  - destruct (Hm self s) as (evs1 & Hl1 & Hr1); [now rewrite E|].
    destruct (Hk a s self' Hs) as (evs2 & Hl2 & Hr2).
    exists (evs1 ++ evs2). split; [|now apply rmw_log_app].
    now rewrite Hl2, Hl1, app_assoc.
  - apply (Hm self self'). now rewrite E.
  - discriminate.
Qed.

Lemma disciplined_local {A} (m : M (TLA2024 Dev) A) :
  (forall self, exists self',
     state_after (m self) = Some self' /\ bus_log self' = bus_log self) ->
  disciplined m.
Proof.
  intros Hm self self' Hs. destruct (Hm self) as (s & Hs' & Hl).
  rewrite Hs in Hs'. injection Hs' as <-. exists [].
  split; [now rewrite app_nil_r | constructor].
Qed.

Lemma disciplined_read_register reg : disciplined (read_register dev_read reg).
Proof.
  intros self self' Hs. unfold read_register in Hs.
  destruct (dev_read reg (i2c_device self)) as [bytes d].
  injection Hs as <-. eexists. split; [reflexivity | repeat constructor].
Qed.

Lemma disciplined_RWBit_get b : disciplined (RWBit_get dev_read b).
Proof.
  apply disciplined_bind;
    [apply disciplined_read_register | intros; apply disciplined_ret].
Qed.

Lemma disciplined_RWBits_get f : disciplined (RWBits_get dev_read f).
Proof.
  apply disciplined_bind;
    [apply disciplined_read_register | intros; apply disciplined_ret].
Qed.

Lemma disciplined_write self self' d word word' :
  get_bits_word _pga word' = get_bits_word _pga word ->
  Some (logged self d [BusRead _CONFIG_REG word; BusWrite _CONFIG_REG word'])
  = Some self' ->
  exists evs, bus_log self' = bus_log self ++ evs /\ rmw_log evs.
Proof.
  intros Hpga Hs. injection Hs as <-. eexists. split; [reflexivity|].
  apply rmw_write; [exact Hpga | constructor].
Qed.

Lemma disciplined_set_mode_bit value :
  disciplined (RWBit_set dev_read dev_write _mode value).
Proof.
  intros self self' Hs.
  destruct (dev_read _CONFIG_REG (i2c_device self)) as [bytes d] eqn:H.
  rewrite (RWBit_set_run _ dev_read dev_write _mode value self bytes d H) in Hs.
  eapply disciplined_write; [|exact Hs]. apply pga_kept_by_mode_write.
Qed.

Lemma disciplined_set_os_bit value :
  disciplined (RWBit_set dev_read dev_write _os value).
Proof.
  intros self self' Hs.
  destruct (dev_read _CONFIG_REG (i2c_device self)) as [bytes d] eqn:H.
  rewrite (RWBit_set_run _ dev_read dev_write _os value self bytes d H) in Hs.
  eapply disciplined_write; [|exact Hs]. apply pga_kept_by_os_write.
Qed.

Lemma disciplined_set_mux_field value :
  0 <= value < 8 -> disciplined (RWBits_set dev_read dev_write _mux value).
Proof.
  intros Hv self self' Hs.
  destruct (dev_read _CONFIG_REG (i2c_device self)) as [bytes d] eqn:H.
  rewrite (RWBits_set_run _ dev_read dev_write _mux value self bytes d H) in Hs.
  eapply disciplined_write; [|exact Hs]. apply pga_kept_by_mux_write, Hv.
Qed.

Lemma disciplined_set_data_rate_field value :
  0 <= value < 8 -> disciplined (RWBits_set dev_read dev_write _data_rate value).
Proof.
  intros Hv self self' Hs.
  destruct (dev_read _CONFIG_REG (i2c_device self)) as [bytes d] eqn:H.
  rewrite (RWBits_set_run _ dev_read dev_write _data_rate value self bytes d H) in Hs.
  eapply disciplined_write; [|exact Hs]. apply pga_kept_by_data_rate_write, Hv.
Qed.

Lemma disciplined_getattr_range : disciplined (@getattr_range Dev).
Proof.
  apply disciplined_local. intros self. unfold getattr_range.
  destruct (range self); now exists self.
Qed.

Lemma disciplined_setattr_range value : disciplined (@setattr_range Dev value).
Proof. apply disciplined_local. intros self. eexists. split; reflexivity. Qed.

Lemma disciplined_get_last_one_shot : disciplined (@get_last_one_shot Dev).
Proof. apply disciplined_local. intros self. now exists self. Qed.

Lemma disciplined_set_last_one_shot v : disciplined (@set_last_one_shot Dev v).
Proof. apply disciplined_local. intros self. eexists. split; reflexivity. Qed.

Lemma disciplined_py_rshift a b : disciplined (py_rshift a b : M (TLA2024 Dev) Z).
Proof.
  unfold py_rshift. destruct (b <? 0); [apply disciplined_raise | apply disciplined_ret].
Qed.

Lemma disciplined_read_volts : disciplined (_read_volts dev_read).
Proof.
  unfold _read_volts, _read_lsb, _raw_adc_read.
  repeat (apply disciplined_bind; [|intros]);
    auto using disciplined_read_register, disciplined_ret,
      disciplined_getattr_range, disciplined_py_rshift.
Qed.

Lemma disciplined_voltage : disciplined (voltage dev_read).
Proof.
  unfold voltage, mode. apply disciplined_bind; [apply disciplined_RWBit_get|].
  intros m. destruct (Z.b2z m =? ONE_SHOT).
  - apply disciplined_get_last_one_shot.
  - apply disciplined_bind; [apply disciplined_read_volts | intros; apply disciplined_ret].
Qed.

Lemma disciplined_wait_os fuel : disciplined (wait_os dev_read fuel).
Proof.
  induction fuel as [|fuel IH]; cbn [wait_os].
  - intros self self' Hs. discriminate.
  - apply disciplined_bind; [apply disciplined_RWBit_get|].
    intros busy. destruct busy; [exact IH | apply disciplined_ret].
Qed.

Lemma disciplined_set_input_channel channel :
  disciplined (set_input_channel dev_read dev_write channel).
Proof.
  unfold set_input_channel.
  destruct ((0 <=? channel) && (channel <? 4)) eqn:E; simpl.
  - apply andb_true_iff in E. apply disciplined_set_mux_field. lia.
  - apply disciplined_raise.
Qed.

Lemma disciplined_set_mux m : disciplined (set_mux dev_read dev_write m).
Proof.
  unfold set_mux. destruct (CV.is_valid Mux m) eqn:E; simpl.
  - apply Mux_is_valid in E. apply disciplined_set_mux_field. lia.
  - apply disciplined_raise.
Qed.

Lemma disciplined_set_data_rate rate :
  disciplined (set_data_rate dev_read dev_write rate).
Proof.
  unfold set_data_rate. destruct (CV.is_valid DataRate rate) eqn:E; simpl.
  - apply DataRate_is_valid in E. apply disciplined_set_data_rate_field. lia.
  - apply disciplined_raise.
Qed.

Lemma disciplined_set_mode fuel m : disciplined (set_mode dev_read dev_write fuel m).
Proof.
  unfold set_mode. destruct (CV.is_valid Mode m); simpl; [|apply disciplined_raise].
  destruct (m =? CONTINUOUS); [apply disciplined_set_mode_bit|].
  apply disciplined_bind; [apply disciplined_set_mode_bit | intros _].
  apply disciplined_bind; [apply disciplined_set_os_bit | intros _].
  apply disciplined_bind; [apply disciplined_wait_os | intros _].
  apply disciplined_bind; [apply disciplined_read_volts | intros v].
  apply disciplined_set_last_one_shot.
Qed.

Lemma disciplined_read fuel channel : disciplined (read dev_read dev_write fuel channel).
Proof.
  unfold read.
  apply disciplined_bind; [apply disciplined_set_input_channel | intros _].
  apply disciplined_bind; [apply disciplined_set_mode | intros _].
  apply disciplined_voltage.
Qed.

Lemma disciplined_call fuel c : disciplined (call dev_read dev_write fuel c).
Proof.
  destruct c; unfold call;
    (apply disciplined_bind; [|intros; apply disciplined_ret]);
    unfold input_channel, mode, data_rate, mux;
    auto using disciplined_voltage, disciplined_RWBits_get, disciplined_RWBit_get,
      disciplined_set_input_channel, disciplined_set_mode, disciplined_set_data_rate,
      disciplined_set_mux, disciplined_getattr_range, disciplined_setattr_range,
      disciplined_read.
Qed.

(** X15. Whatever a client calls, and whether the call returns or
    raises, the register transactions it adds to the bus are reads and
    read-modify-write pairs on CONFIG: no write ever goes to the DATA
    register, every write directly follows a read of CONFIG, and the
    word written carries the PGA bits of the word read, so no call
    changes the gain field. *)
Theorem calls_keep_bus_discipline fuel c self self' :
  state_after (call dev_read dev_write fuel c self) = Some self' ->
  exists evs,
    bus_log self' = bus_log self ++ evs /\
    rmw_log evs /\
    forall reg word, In (BusWrite reg word) evs -> reg = _CONFIG_REG.
Proof.
  intros Hs. destruct (disciplined_call fuel c self self' Hs) as (evs & Hl & Hr).
  exists evs. split; [exact Hl|]. split; [exact Hr|].
  apply rmw_log_writes_config, Hr.
Qed.

(** *** The word construction leaves in CONFIG *)

Lemma field_of_merged b keep put m :
  Z.land keep m = 0 ->
  Z.land (Z.lor (Z.land b keep) put) m = Z.land put m.
Proof.
  intros Hk. now rewrite Z.land_lor_distr_l, <- Z.land_assoc, Hk, Z.land_0_r, Z.lor_0_l.
Qed.

Lemma field_of_kept b keep put m :
  Z.land keep m = m ->
  Z.land put m = 0 ->
  Z.land (Z.lor (Z.land b keep) put) m = Z.land b m.
Proof.
  intros Hk Hp. now rewrite Z.land_lor_distr_l, <- Z.land_assoc, Hk, Hp, Z.lor_0_r.
Qed.

Lemma default_word b :
  set_bits_word _data_rate RATE_3300SPS
    (set_bits_word _mux MUX_AIN0_GND (set_bit_word _mode false b))
  = Z.lor (Z.land b 0x8E1F) 0x40C0.
Proof.
  rewrite data_rate_word_replaces by (unfold RATE_3300SPS; lia).
  rewrite mux_word_replaces by (unfold MUX_AIN0_GND; lia).
  unfold outside_field, set_bit_word.
  rewrite Z.land_lor_distr_l, <- !Z.land_assoc, <- Z.lor_assoc.
  reflexivity.
Qed.

(** X16. On a device that answers each CONFIG read with the word last
    written, construction leaves in CONFIG the word found there with
    the mode bit cleared, the MUX field 4 and the data-rate field 6;
    the status bit, the PGA field and the low five bits are as found,
    so the three writes do not disturb one another. *)
Theorem init_leaves_default_word fuel i2c bytes0 d0 bytes1 d1 bytes2 d2 :
  dev_read _CONFIG_REG i2c = (bytes0, d0) ->
  let w0 := set_bit_word _mode false (word16 bytes0) in
  dev_read _CONFIG_REG (dev_write _CONFIG_REG w0 d0) = (bytes1, d1) ->
  word16 bytes1 = w0 ->
  let w1 := set_bits_word _mux MUX_AIN0_GND w0 in
  dev_read _CONFIG_REG (dev_write _CONFIG_REG w1 d1) = (bytes2, d2) ->
  word16 bytes2 = w1 ->
  let wf := Z.lor (Z.land (word16 bytes0) 0x8E1F) 0x40C0 in
  __init__ dev_read dev_write fuel i2c
  = Ret tt
      (mkTLA2024 (dev_write _CONFIG_REG wf d2)
         [BusRead _CONFIG_REG (word16 bytes0); BusWrite _CONFIG_REG w0;
          BusRead _CONFIG_REG w0; BusWrite _CONFIG_REG w1;
          BusRead _CONFIG_REG w1; BusWrite _CONFIG_REG wf]
         None (Some RANGE_2_048V)) /\
  Z.testbit wf 8 = false /\
  get_bits_word _mux wf = MUX_AIN0_GND /\
  get_bits_word _data_rate wf = RATE_3300SPS /\
  get_bits_word _pga wf = get_bits_word _pga (word16 bytes0) /\
  Z.testbit wf 15 = Z.testbit (word16 bytes0) 15 /\
  Z.land wf 0x1F = Z.land (word16 bytes0) 0x1F.
Proof.
  intros H0 w0 H1 Hb1 w1 H2 Hb2 wf.
  split.
  - assert (dev_read _CONFIG_REG
              (dev_write _CONFIG_REG
                 (set_bits_word _mux MUX_AIN0_GND (word16 bytes1)) d1)
            = (bytes2, d2)) as H2' by (rewrite Hb1; exact H2).
    rewrite (init_run _ dev_read dev_write fuel i2c _ _ _ _ _ _ H0 H1 H2').
    rewrite Hb2, Hb1. fold w0. fold w1.
    replace (set_bits_word _data_rate RATE_3300SPS w1) with wf
      by (symmetry; apply default_word).
    reflexivity.
  - unfold wf. repeat split.
    + rewrite Z.lor_spec, Z.land_spec.
      change (Z.testbit 0x8E1F 8) with false. change (Z.testbit 0x40C0 8) with false.
      now rewrite andb_false_r.
    + unfold get_bits_word. rewrite field_of_merged by reflexivity. reflexivity.
    + unfold get_bits_word. rewrite field_of_merged by reflexivity. reflexivity.
    + unfold get_bits_word. rewrite field_of_kept by reflexivity. reflexivity.
    + rewrite Z.lor_spec, Z.land_spec.
      change (Z.testbit 0x8E1F 15) with true. change (Z.testbit 0x40C0 15) with false.
      now rewrite andb_true_r, orb_false_r.
    + apply field_of_kept; reflexivity.
Qed.

End DriverMore.

(** ** Further runs on the simulated converter *)

Lemma read_lsb_round_trip_witness :
  let self := Sim.instance (Sim.idle 0x0583 [0xFFF7]) 2 in
  _read_lsb Sim.dev_read self
  = Ret (-1) (logged self (Sim.idle 0x0583 []) [BusRead _DATA_REG 0xFFF7]).
Proof.
  assert (-2048 <= -1 <= 2047) as Hs by lia.
  assert (0 <= 7 < 16) as Hk by lia.
  exact (read_lsb_round_trip Sim.device Sim.dev_read
           (Sim.instance (Sim.idle 0x0583 [0xFFF7]) 2)
           0xFFF7 (Sim.idle 0x0583 []) (-1) 7 eq_refl Hs Hk eq_refl).
Defined.

Lemma set_mux_round_trip_witness :
  let self := Sim.instance (Sim.idle 0x0583 []) 2 in
  let self1 := logged self (Sim.idle 0x1583 [])
                 [BusRead _CONFIG_REG 0x0583; BusWrite _CONFIG_REG 0x1583] in
  set_mux Sim.dev_read Sim.dev_write 8 self
  = Raise (AttributeError "``mux`` must be a valid ``Mux``") self /\
  set_mux Sim.dev_read Sim.dev_write 1 self = Ret tt self1 /\
  mux Sim.dev_read self1
  = Ret 1 (logged self1 (Sim.idle 0x1583 []) [BusRead _CONFIG_REG 0x1583]).
Proof.
  assert (~ 0 <= 8 <= 7) as Hbad by lia.
  assert (0 <= 1 <= 7) as Hok by lia.
  split.
  - exact (proj1 (set_mux_round_trip Sim.device Sim.dev_read Sim.dev_write 8
                    (Sim.instance (Sim.idle 0x0583 []) 2)
                    0x0583 (Sim.idle 0x0583 []) 0 (Sim.idle 0 []) eq_refl) Hbad).
  - destruct (proj2 (set_mux_round_trip Sim.device Sim.dev_read Sim.dev_write 1
                       (Sim.instance (Sim.idle 0x0583 []) 2)
                       0x0583 (Sim.idle 0x0583 []) 0x1583 (Sim.idle 0x1583 [])
                       eq_refl) Hok) as (Hset & _ & _ & Hget).
    split; [exact Hset | exact (Hget eq_refl eq_refl)].
Defined.

Lemma set_data_rate_round_trip_witness :
  let self := Sim.instance (Sim.idle 0x0583 []) 2 in
  let self1 := logged self (Sim.idle 0x0563 [])
                 [BusRead _CONFIG_REG 0x0583; BusWrite _CONFIG_REG 0x0563] in
  set_data_rate Sim.dev_read Sim.dev_write 7 self
  = Raise (AttributeError "``data_rate`` must be a valid ``DataRate``") self /\
  set_data_rate Sim.dev_read Sim.dev_write 3 self = Ret tt self1 /\
  data_rate Sim.dev_read self1
  = Ret 3 (logged self1 (Sim.idle 0x0563 []) [BusRead _CONFIG_REG 0x0563]).
Proof.
  assert (~ 0 <= 7 <= 6) as Hbad by lia.
  assert (0 <= 3 <= 6) as Hok by lia.
  split.
  - exact (proj1 (set_data_rate_round_trip Sim.device Sim.dev_read Sim.dev_write 7
                    (Sim.instance (Sim.idle 0x0583 []) 2)
                    0x0583 (Sim.idle 0x0583 []) 0 (Sim.idle 0 []) eq_refl) Hbad).
  - destruct (proj2 (set_data_rate_round_trip Sim.device Sim.dev_read Sim.dev_write 3
                       (Sim.instance (Sim.idle 0x0583 []) 2)
                       0x0583 (Sim.idle 0x0583 []) 0x0563 (Sim.idle 0x0563 [])
                       eq_refl) Hok) as (Hset & _ & _ & Hget).
    split; [exact Hset | exact (Hget eq_refl eq_refl)].
Defined.

Lemma set_mode_validates_and_clears_bit_witness :
  let self := Sim.instance (Sim.idle 0x0583 []) 2 in
  let self1 := logged self (Sim.idle 0x0483 [])
                 [BusRead _CONFIG_REG 0x0583; BusWrite _CONFIG_REG 0x0483] in
  set_mode Sim.dev_read Sim.dev_write 0 2 self
  = Raise (AttributeError "``mode`` must be a valid ``Mode``") self /\
  set_mode Sim.dev_read Sim.dev_write 0 CONTINUOUS self = Ret tt self1 /\
  mode Sim.dev_read self1
  = Ret false (logged self1 (Sim.idle 0x0483 []) [BusRead _CONFIG_REG 0x0483]).
Proof.
  assert (2 <> 0) as H0 by lia.
  assert (2 <> 1) as H1 by lia.
  destruct (set_mode_validates_and_clears_bit Sim.device Sim.dev_read Sim.dev_write
              0%nat 2 (Sim.instance (Sim.idle 0x0583 []) 2)
              0x0583 (Sim.idle 0x0583 []) 0x0483 (Sim.idle 0x0483 []) eq_refl)
    as (Hbad & Hset & _ & Hget).
  split; [exact (Hbad H0 H1)|].
  split; [exact Hset | exact (Hget eq_refl eq_refl)].
Defined.

Lemma input_channel_is_mux_witness :
  let self := Sim.instance (Sim.idle 0x0583 []) 2 in
  set_input_channel Sim.dev_read Sim.dev_write 2 self
  = set_mux Sim.dev_read Sim.dev_write 6 self /\
  input_channel Sim.dev_read self = mux Sim.dev_read self.
Proof.
  assert (0 <= 2 < 4) as Hc by lia.
  exact (input_channel_is_mux Sim.device Sim.dev_read Sim.dev_write 2
           (Sim.instance (Sim.idle 0x0583 []) 2) Hc).
Defined.

Lemma pin_selects_input_to_ground_witness :
  let self := Sim.instance (Sim.idle 0x0583 []) 2 in
  set_input_channel Sim.dev_read Sim.dev_write A2 self
  = Ret tt (logged self (Sim.idle 0x6583 [])
              [BusRead _CONFIG_REG 0x0583; BusWrite _CONFIG_REG 0x6583]) /\
  get_bits_word _mux 0x6583 = 6 /\
  CV.string Mux !! 6 = Some (PyStr "AIN 2 to GND").
Proof.
  assert (In A2 [A0; A1; A2; A3]) as Hpin by (simpl; auto).
  exact (pin_selects_input_to_ground Sim.device Sim.dev_read Sim.dev_write A2
           (Sim.instance (Sim.idle 0x0583 []) 2)
           0x0583 (Sim.idle 0x0583 []) Hpin eq_refl).
Defined.

Lemma negative_range_raises_witness :
  let self0 := Sim.instance (Sim.idle 0x0483 [0x7FF0]) 2 in
  let self := Sim.instance (Sim.idle 0x0483 [0x7FF0]) (-1) in
  call Sim.dev_read Sim.dev_write 0 (SetRange (-1)) self0 = Ret PyNone self /\
  voltage Sim.dev_read self
  = Raise (ValueError "negative shift count")
          (logged self (Sim.idle 0x0483 [])
             [BusRead _CONFIG_REG 0x0483; BusRead _DATA_REG 0x7FF0]).
Proof.
  assert (-1 < 0) as Hr by lia.
  exact (negative_range_raises Sim.device Sim.dev_read Sim.dev_write 0%nat
           (Sim.instance (Sim.idle 0x0483 [0x7FF0]) 2)
           0x0483 (Sim.idle 0x0483 [0x7FF0]) 0x7FF0 (Sim.idle 0x0483 []) (-1)
           Hr eq_refl eq_refl eq_refl).
Defined.

Lemma one_shot_never_returns_while_busy_witness :
  let self := mkTLA2024 (tt : Stuck.device) [] None (Some 2) in
  set_mode Stuck.dev_read Stuck.dev_write 1000 ONE_SHOT self = Hang /\
  read Stuck.dev_read Stuck.dev_write 1000 0 self = Hang.
Proof.
  assert (0 <= 0 < 4) as Hc by lia.
  destruct (one_shot_never_returns_while_busy Stuck.device Stuck.dev_read Stuck.dev_write
              (fun d => eq_refl) 1000%nat (mkTLA2024 (tt : Stuck.device) [] None (Some 2)))
    as [Hset Hread].
  split; [exact Hset | exact (Hread 0 Hc)].
Defined.

Lemma read_rejects_channel_witness :
  let self := Sim.instance (Sim.idle 0x0483 [0x7FF0]) 2 in
  read Sim.dev_read Sim.dev_write 5 4 self
  = Raise (AttributeError "``input_channel`` must be set to a number from 0 to 3")
          self.
Proof.
  assert (~ 0 <= 4 < 4) as Hc by lia.
  exact (read_rejects_channel Sim.device Sim.dev_read Sim.dev_write 5%nat 4
           (Sim.instance (Sim.idle 0x0483 [0x7FF0]) 2) Hc).
Defined.

Lemma read_returns_fresh_acquisition_witness :
  let self := Sim.instance (Sim.idle 0x0483 [0x7FF0]) 2 in
  read Sim.dev_read Sim.dev_write 3 1 self
  = Ret (Some 2.048%float)
      (mkTLA2024 (Sim.idle 0xD583 [])
         [BusRead _CONFIG_REG 0x0483; BusWrite _CONFIG_REG 0x5483;
          BusRead _CONFIG_REG 0x5483; BusWrite _CONFIG_REG 0x5583;
          BusRead _CONFIG_REG 0x5583; BusWrite _CONFIG_REG 0xD583;
          BusRead _CONFIG_REG 0xD583; BusRead _CONFIG_REG 0xD583;
          BusRead _CONFIG_REG 0x5583;
          BusRead _DATA_REG 0x7FF0; BusRead _CONFIG_REG 0x5583]
         (Some 2.048%float) (Some 2)).
Proof.
  assert (os_polls Sim.dev_read
            (Sim.dev_write _CONFIG_REG 0xD583 (Sim.idle 0x5583 [0x7FF0]))
            [BusRead _CONFIG_REG 0xD583; BusRead _CONFIG_REG 0xD583;
             BusRead _CONFIG_REG 0x5583]
            (Sim.idle 0xD583 [0x7FF0])) as Hpolls.
  { eapply (os_polls_busy _ _ _ 0xD583); [reflexivity | reflexivity |].
    eapply (os_polls_busy _ _ _ 0xD583); [reflexivity | reflexivity |].
    eapply (os_polls_clear _ _ _ 0x5583); reflexivity. }
  assert (0 <= 1 < 4) as Hc by lia.
  assert (0 <= 2) as Hpos by lia.
  assert (length [BusRead _CONFIG_REG 0xD583; BusRead _CONFIG_REG 0xD583;
                  BusRead _CONFIG_REG 0x5583] <= 3)%nat as Hfuel by (simpl; lia).
  exact (read_returns_fresh_acquisition Sim.device Sim.dev_read Sim.dev_write
           3%nat 1 (Sim.instance (Sim.idle 0x0483 [0x7FF0]) 2)
           0x0483 (Sim.idle 0x0483 [0x7FF0])
           0x5483 (Sim.idle 0x5483 [0x7FF0])
           0x5583 (Sim.idle 0x5583 [0x7FF0])
           _ _ 0x7FF0 (Sim.idle 0xD583 []) 0x5583 (Sim.idle 0xD583 []) 2
           Hc eq_refl eq_refl eq_refl Hpolls eq_refl eq_refl eq_refl eq_refl
           Hpos Hfuel).
Defined.

Lemma calls_keep_bus_discipline_witness :
  exists evs,
    [BusRead _CONFIG_REG 0x0483; BusWrite _CONFIG_REG 0x5483;
     BusRead _CONFIG_REG 0x5483; BusWrite _CONFIG_REG 0x5583;
     BusRead _CONFIG_REG 0x5583; BusWrite _CONFIG_REG 0xD583;
     BusRead _CONFIG_REG 0xD583; BusRead _CONFIG_REG 0xD583;
     BusRead _CONFIG_REG 0x5583;
     BusRead _DATA_REG 0x7FF0; BusRead _CONFIG_REG 0x5583] = [] ++ evs /\
    rmw_log evs /\
    forall reg word, In (BusWrite reg word) evs -> reg = _CONFIG_REG.
Proof.
  exact (calls_keep_bus_discipline Sim.device Sim.dev_read Sim.dev_write
           3%nat (CallRead 1) (Sim.instance (Sim.idle 0x0483 [0x7FF0]) 2)
           (mkTLA2024 (Sim.idle 0xD583 [])
              [BusRead _CONFIG_REG 0x0483; BusWrite _CONFIG_REG 0x5483;
               BusRead _CONFIG_REG 0x5483; BusWrite _CONFIG_REG 0x5583;
               BusRead _CONFIG_REG 0x5583; BusWrite _CONFIG_REG 0xD583;
               BusRead _CONFIG_REG 0xD583; BusRead _CONFIG_REG 0xD583;
               BusRead _CONFIG_REG 0x5583;
               BusRead _DATA_REG 0x7FF0; BusRead _CONFIG_REG 0x5583]
              (Some 2.048%float) (Some 2))
           eq_refl).
Defined.

Lemma init_leaves_default_word_witness :
  __init__ Sim.dev_read Sim.dev_write 0 (Sim.idle 0x8583 [])
  = Ret tt
      (mkTLA2024 (Sim.idle 0x44C3 [])
         [BusRead _CONFIG_REG 0x0583; BusWrite _CONFIG_REG 0x0483;
          BusRead _CONFIG_REG 0x0483; BusWrite _CONFIG_REG 0x4483;
          BusRead _CONFIG_REG 0x4483; BusWrite _CONFIG_REG 0x44C3]
         None (Some 2)) /\
  get_bits_word _pga 0x44C3 = get_bits_word _pga 0x0583.
Proof.
  destruct (init_leaves_default_word Sim.device Sim.dev_read Sim.dev_write 0%nat
              (Sim.idle 0x8583 [])
              0x0583 (Sim.idle 0x8583 [])
              0x0483 (Sim.idle 0x0483 [])
              0x4483 (Sim.idle 0x4483 [])
              eq_refl eq_refl eq_refl eq_refl eq_refl)
    as (Hinit & _ & _ & _ & Hpga & _).
  split; [exact Hinit | exact Hpga].
Defined.
